(** * MONAI inferers and simple layers: a shallow embedding

    The development follows two Python modules,
    [monai/inferers/inferer.py] and [monai/networks/layers/simplelayers.py].
    Python objects are records whose methods run in a state-and-exception
    monad; the tensor runtime is modelled at the level the code observes it:
    a tensor is its shape, strides, dtype and device together with an
    uninterpreted term that records how its values were computed. *)

From Stdlib Require Import ZArith List Floats Uint63 Lia.
From stdpp Require Import base tactics option list list_monad sorting strings pretty.

#[local] Open Scope Z_scope.
#[local] Set Warnings "-register-all".

(** ** Python: exceptions, results, the method monad *)

Inductive exn : Type :=
| AssertionError (msg : string)
| TypeError (msg : string)
| ValueError (msg : string)
| IndexError (msg : string)
| RuntimeError (msg : string)
| NotImplementedError (msg : string).

Inductive result (A : Type) : Type :=
| Ok (a : A)
| Raise (e : exn).
Arguments Ok {A} a.
Arguments Raise {A} e.

#[global] Instance result_ret : MRet result := fun A a => Ok a.
#[global] Instance result_bind : MBind result := fun A B f r =>
  match r with
  | Ok a => f a
  | Raise e => Raise e
  end.

(** A computation over a mutable state [S]: it returns a value or raises,
    and the state it leaves behind is kept in both cases, as an exception
    in Python does not undo earlier assignments. *)
Definition M (S A : Type) : Type := S -> result A * S.

#[global] Instance M_ret {S} : MRet (M S) := fun A a s => (Ok a, s).
#[global] Instance M_bind {S} : MBind (M S) := fun A B f m s =>
  match m s with
  | (Ok a, s') => f a s'
  | (Raise e, s') => (Raise e, s')
  end.

Definition lift {S A} (r : result A) : M S A := fun s => (r, s).
Definition raise {S A} (e : exn) : M S A := lift (Raise e).
Definition gets {S A} (f : S -> A) : M S A := fun s => (Ok (f s), s).

(** [assert cond, msg] *)
Definition assert_ (cond : bool) (msg : string) : result unit :=
  if cond then Ok tt else Raise (AssertionError msg).

(** A method body sees the object [Self] and the rest of the world [W]
    (the state owned by the callables it is handed). *)
Definition world_ {Self W A} (m : M W A) : M (Self * W) A := fun s =>
  let '(r, w) := m s.2 in (r, (s.1, w)).

(** ** Python: values, classes, [isinstance], argument binding *)

Inductive pytype : Type :=
| T_object | T_NoneType | T_bool | T_int | T_float | T_str | T_list | T_tuple
| T_class (name : string) (base : pytype).

#[global] Instance pytype_eq_dec : EqDecision pytype.
Proof. solve_decision. Defined.

(** The method resolution order of a class: the class itself followed by
    its bases ([bool] derives from [int], every class from [object]). *)
Fixpoint mro (t : pytype) : list pytype :=
  match t with
  | T_object => [T_object]
  | T_bool => [T_bool; T_int; T_object]
  | T_class _ base => t :: mro base
  | _ => [t; T_object]
  end.

Definition issubclass (t c : pytype) : bool := bool_decide (c ∈ mro t).

Inductive Value : Type :=
| VNone
| VBool (b : bool)
| VInt (n : Z)
| VFloat (x : float)
| VStr (s : string)
| VList (items : list Value)
| VTuple (items : list Value)
| VObject (cls : pytype) (items : list Value).

Definition type_ (v : Value) : pytype :=
  match v with
  | VNone => T_NoneType
  | VBool _ => T_bool
  | VInt _ => T_int
  | VFloat _ => T_float
  | VStr _ => T_str
  | VList _ => T_list
  | VTuple _ => T_tuple
  | VObject cls _ => cls
  end.

(** [isinstance(v, (c1, c2, ...))] *)
Definition isinstance (v : Value) (classes : list pytype) : bool :=
  existsb (issubclass (type_ v)) classes.

(** The items of a list, a tuple or an instance of a subclass of either. *)
Definition sequence_items (v : Value) : option (list Value) :=
  match v with
  | VList items | VTuple items => Some items
  | VObject cls items =>
      if isinstance v [T_list; T_tuple] then Some items else None
  | _ => None
  end.

(** A parameter list: each name with its default, [None] when the
    parameter is required. *)
Definition Signature : Type := list (string * option Value).

Definition keyword (k : string) (kwargs : list (string * Value)) : option Value :=
  snd <$> find (fun kv => bool_decide (kv.1 = k)) kwargs.

(** The parameters no positional argument filled: each takes its keyword
    argument, else its default, else the call is a [TypeError]. *)
Fixpoint bind_rest (params : Signature) (kwargs : list (string * Value))
  : result (list Value) :=
  match params with
  | [] => Ok []
  | (p, dflt) :: params' =>
      v ← match keyword p kwargs, dflt with
          | Some v, _ => Ok v
          | None, Some d => Ok d
          | None, None => Raise (TypeError ("missing required argument: " ++ p))
          end;
      vs ← bind_rest params' kwargs;
      mret (v :: vs)
  end.

(** A call with positional arguments [args] and keyword arguments [kwargs]
    (distinct names) against a parameter list: the values of the
    parameters, in the order of the list. *)
Definition bind_args (sig : Signature) (args : list Value)
    (kwargs : list (string * Value)) : result (list Value) :=
  let filled := take (length args) sig in
  if bool_decide (length sig < length args)%nat then
    Raise (TypeError "too many positional arguments")
  else if existsb (fun kv => bool_decide (kv.1 ∉ sig.*1)) kwargs then
    Raise (TypeError "unexpected keyword argument")
  else if existsb (fun kv => bool_decide (kv.1 ∈ filled.*1)) kwargs then
    Raise (TypeError "multiple values for argument")
  else
    vs ← bind_rest (drop (length args) sig) kwargs;
    mret (args ++ vs).

(** Sequence indexing with Python's negative indices. *)
Definition py_index (n : nat) (i : Z) : option nat :=
  if bool_decide (0 <= i < Z.of_nat n) then Some (Z.to_nat i)
  else if bool_decide (- Z.of_nat n <= i < 0) then Some (Z.to_nat (Z.of_nat n + i))
  else None.

(** [l[i]] *)
Definition getitem {A} (l : list A) (i : Z) : result A :=
  match py_index (length l) i ≫= (l !!.) with
  | Some x => Ok x
  | None => Raise (IndexError "index out of range")
  end.

(** [l[i] = x] *)
Definition setitem {A} (l : list A) (i : Z) (x : A) : result (list A) :=
  match py_index (length l) i with
  | Some k => Ok (<[k:=x]> l)
  | None => Raise (IndexError "list assignment index out of range")
  end.

(** [[x] * n]: empty when [n] is not positive. *)
Definition py_replicate {A} (x : A) (n : Z) : list A := replicate (Z.to_nat n) x.

(** ** The tensor runtime, as far as the code observes it

    A tensor carries its shape, its strides, its dtype and its device. Its
    values stay uninterpreted: [data] is the term of runtime operations
    that produced them, so two tensors are equal when they were computed
    the same way and are laid out the same way. *)

Inductive Dtype : Type := float16 | float32 | float64 | uint8 | int32 | int64.
Inductive Device : Type := cpu | cuda (index : nat).

#[global] Instance Dtype_eq_dec : EqDecision Dtype.
Proof. solve_decision. Defined.
#[global] Instance Device_eq_dec : EqDecision Device.
Proof. solve_decision. Defined.

Inductive Data : Type :=
| Leaf (id : nat)
| Op (name : string) (params : list Z) (args : list Data).

Record Tensor : Type := mkStrided {
  shape : list Z;
  strides : list Z;
  dtype : Dtype;
  device : Device;
  data : Data
}.

Definition prod_ (l : list Z) : Z := foldr Z.mul 1 l.

(** The strides of a freshly allocated tensor: row-major, a dimension
    without elements counting as one. *)
Fixpoint contiguous_strides (sizes : list Z) : list Z :=
  match sizes with
  | [] => []
  | _ :: rest => prod_ (Z.max 1 <$> rest) :: contiguous_strides rest
  end.

(** A freshly allocated tensor. *)
Abbreviation mkTensor sizes dt dev values :=
  (mkStrided sizes (contiguous_strides sizes) dt dev values) (only parsing).

(** [t.numel()] *)
Definition numel (t : Tensor) : Z := prod_ (shape t).

(** [t.size(d)] *)
Definition size (t : Tensor) (d : Z) : result Z :=
  match py_index (length (shape t)) d ≫= (shape t !!.) with
  | Some n => Ok n
  | None => Raise (IndexError "Dimension out of range")
  end.

(** One pass over a requested shape: whether a [-1] was met and the
    product of the other sizes. *)
Fixpoint scan_shape (spec : list Z) (infer : bool) (newsize : Z)
  : result (bool * Z) :=
  match spec with
  | [] => Ok (infer, newsize)
  | d :: spec' =>
      if bool_decide (d = -1) then
        if infer then Raise (RuntimeError "only one dimension can be inferred")
        else scan_shape spec' true newsize
      else if bool_decide (0 <= d) then scan_shape spec' infer (newsize * d)
      else Raise (RuntimeError "invalid shape dimension")
  end.

(** The sizes a requested shape stands for on [n] elements; a single [-1]
    is inferred, unless the other sizes multiply to zero. *)
Definition infer_size (spec : list Z) (n : Z) : result (list Z) :=
  '(infer, newsize) ← scan_shape spec false 1;
  if bool_decide (n = newsize) || (infer && bool_decide (0 < newsize) && bool_decide (n `mod` newsize = 0)) then
    if infer then
      if bool_decide (newsize = 0) then
        Raise (RuntimeError "cannot reshape tensor of 0 elements: the unspecified dimension size -1 can be any value and is ambiguous")
      else Ok ((fun d => if bool_decide (d = -1) then n `div` newsize else d) <$> spec)
    else Ok spec
  else Raise (RuntimeError "shape is invalid for input size").

(** [t.is_contiguous()]: from the last dimension to the first, every
    dimension of more than one element has the stride that the dimensions
    after it fill; a tensor without elements is contiguous. *)
Fixpoint contiguous_from (rdims : list (Z * Z)) (expected : Z) : bool :=
  match rdims with
  | [] => true
  | (sz, st) :: rest =>
      if bool_decide (sz = 1) then contiguous_from rest expected
      else bool_decide (st = expected) && contiguous_from rest (expected * sz)
  end.

Definition is_contiguous (t : Tensor) : bool :=
  bool_decide (numel t = 0) || contiguous_from (reverse (zip (shape t) (strides t))) 1.

(** What the runtime maintains of every tensor: one stride for each
    dimension, and no negative size. *)
Definition Tensor_wf (t : Tensor) : Prop :=
  length (strides t) = length (shape t) /\ Forall (fun d => 0 <= d) (shape t).

(** The inner loop of the stride computation of a view: the dimensions of
    the view, last first, are laid over a chunk of the tensor for as long
    as they have not covered it or have size one. It returns the
    dimensions left, the elements covered and the strides found. *)
Fixpoint cover_chunk (rview : list Z) (view_numel tensor_numel base : Z) (acc : list Z)
  : list Z * Z * list Z :=
  match rview with
  | v :: rest =>
      if bool_decide (view_numel < tensor_numel) || bool_decide (v = 1)
      then cover_chunk rest (view_numel * v) tensor_numel base (view_numel * base :: acc)
      else (rview, view_numel, acc)
  | [] => ([], view_numel, acc)
  end.

(** The outer loop: the dimensions of the tensor, last first, gathered
    into chunks that lie evenly in memory. A chunk ends before a dimension
    of more than one element whose stride is not what the chunk fills; the
    view has to cover each chunk exactly. *)
Fixpoint view_chunks (rold : list (Z * Z)) (rview : list Z) (base tensor_numel : Z)
    (acc : list Z) : option (list Z) :=
  match rold with
  | [] => match rview with [] => Some acc | _ :: _ => None end
  | (sz, _) :: rest =>
      let tensor_numel := tensor_numel * sz in
      let ends := match rest with
                  | [] => true
                  | (psz, pst) :: _ =>
                      bool_decide (psz ≠ 1) && bool_decide (pst ≠ tensor_numel * base)
                  end in
      if ends then
        let '(rview', view_numel, acc') := cover_chunk rview 1 tensor_numel base acc in
        if bool_decide (view_numel = tensor_numel) then
          match rest with
          | [] => view_chunks rest rview' base tensor_numel acc'
          | (_, pst) :: _ => view_chunks rest rview' pst 1 acc'
          end
        else None
      else view_chunks rest rview base tensor_numel acc
  end.

(** The strides of a view of the given sizes on a tensor of the given
    sizes and strides, when the layout of the tensor admits one. *)
Definition view_strides (oldshape oldstride newshape : list Z) : option (list Z) :=
  if bool_decide (oldshape = []) then Some (replicate (length newshape) 1)
  else if bool_decide (prod_ oldshape = 0) then
    if bool_decide (oldshape = newshape) then Some oldstride
    else Some (contiguous_strides newshape)
  else view_chunks (reverse (zip oldshape oldstride)) (reverse newshape)
         (default 0 (last oldstride)) 1 [].

(** [t.view( *spec )]: the same values under other sizes, without a copy;
    it fails when the strides of [t] admit no such view. *)
Definition view (t : Tensor) (spec : list Z) : result Tensor :=
  sizes ← infer_size spec (numel t);
  match view_strides (shape t) (strides t) sizes with
  | Some st => Ok (mkStrided sizes st (dtype t) (device t) (Op "view" sizes [data t]))
  | None =>
      Raise (RuntimeError "view size is not compatible with input tensor's size and stride")
  end.

(** [t.reshape(spec)]: a view where the layout admits one, a contiguous
    copy otherwise. *)
Definition reshape (t : Tensor) (spec : list Z) : result Tensor :=
  sizes ← infer_size spec (numel t);
  mret (mkStrided sizes
          (default (contiguous_strides sizes) (view_strides (shape t) (strides t) sizes))
          (dtype t) (device t) (Op "reshape" sizes [data t])).

(** [t.repeat(reps)] *)
Definition repeat_ (t : Tensor) (reps : list Z) : result Tensor :=
  if bool_decide (length reps < length (shape t))%nat then
    Raise (RuntimeError "Number of dimensions of repeat dims can not be smaller than number of dimensions of tensor")
  else if existsb (fun r => bool_decide (r < 0)) reps then
    Raise (RuntimeError "Trying to create tensor with negative dimension")
  else
    let padded := replicate (length reps - length (shape t)) 1 ++ shape t in
    mret (mkTensor (zip_with Z.mul padded reps) (dtype t) (device t)
            (Op "repeat" reps [data t])).

(** A tensor is dense when its elements fill a block of memory without
    gaps or overlaps: its dimensions of more than one element, taken by
    increasing stride, each have the stride that the ones before fill. *)
Fixpoint dense_from (dims : list (Z * Z)) (expected : Z) : bool :=
  match dims with
  | [] => true
  | (sz, st) :: rest => bool_decide (st = expected) && dense_from rest (expected * sz)
  end.

Definition stride_le (p q : Z * Z) : Prop := p.2 <= q.2.

#[global] Instance stride_le_dec : RelDecision stride_le.
Proof. intros p q. unfold stride_le. apply _. Defined.

Definition is_dense (t : Tensor) : bool :=
  dense_from
    (merge_sort stride_le (filter (fun p : Z * Z => 2 <= p.1) (zip (shape t) (strides t))))
    1.

(** [t.to(other)]: [t] itself when it already has the dtype and device of
    [other], a converted copy otherwise; the copy keeps the strides of a
    dense tensor and is row-major otherwise. *)
Definition to (t other : Tensor) : Tensor :=
  if bool_decide (dtype t = dtype other) && bool_decide (device t = device other) then t
  else mkStrided (shape t)
         (if is_dense t then strides t else contiguous_strides (shape t))
         (dtype other) (device other) (Op "to" [] [data t]).

(** [torch.as_tensor(t)] on a tensor. *)
Definition as_tensor (t : Tensor) : Tensor := t.

(** [t.contiguous()]: [t] itself when it is contiguous, the same values
    laid out row-major otherwise. *)
Definition contiguous (t : Tensor) : Tensor :=
  if is_contiguous t then t
  else mkStrided (shape t) (contiguous_strides (shape t)) (dtype t) (device t) (data t).

(** [torch.cat] leaves out the tensors of shape [[0]], for compatibility. *)
Definition cat_skips (t : Tensor) : bool := bool_decide (shape t = [0]).

(** Two shapes agree except on axis [d]. *)
Definition cat_compatible (d : nat) (s1 s2 : list Z) : bool :=
  bool_decide (<[d:=0]> s1 = <[d:=0]> s2).

(** An axis is passed to the runtime as a 64-bit integer, and one that
    does not fit overflows. Such an integer is no axis of any tensor of
    the runtime, whose dimensions are far fewer than [2 ^ 63]. *)
Definition axis_overflows (tensors : list Tensor) (dim : Z) : bool :=
  negb (bool_decide (- 2 ^ 63 <= dim < 2 ^ 63))
  && forallb (fun t => bool_decide (py_index (length (shape t)) dim = None)) tensors.

(** [torch.cat(tensors, dim)] *)
Definition cat (tensors : list Tensor) (dim : Z) : result Tensor :=
  match tensors with
  | [] =>
      if axis_overflows tensors dim then Raise (ValueError "Overflow when unpacking long")
      else Raise (RuntimeError "expected a non-empty list of Tensors")
  | t0 :: _ =>
      if axis_overflows tensors dim then
        Raise (ValueError "Overflow when unpacking long")
      else if existsb (fun t => bool_decide (shape t = [])) tensors then
        Raise (RuntimeError "zero-dimensional tensor cannot be concatenated")
      else if negb (forallb (fun t => bool_decide (dtype t = dtype t0)) tensors) then
        Raise (RuntimeError "expected tensors of one dtype")
      else if negb (forallb (fun t => bool_decide (device t = device t0)) tensors) then
        Raise (RuntimeError "expected all tensors to be on the same device")
      else
        let payload := Op "cat" [dim] (data <$> tensors) in
        match filter (fun t => cat_skips t = false) tensors with
        | [] => Ok (mkTensor [0] (dtype t0) (device t0) payload)
        | r :: rs =>
            match py_index (length (shape r)) dim with
            | None => Raise (IndexError "Dimension out of range")
            | Some d =>
                if forallb (fun t => cat_compatible d (shape r) (shape t)) rs then
                  let total := foldr Z.add 0 ((fun t => default 0 (shape t !! d)) <$> r :: rs) in
                  Ok (mkTensor (<[d:=total]> (shape r)) (dtype t0) (device t0) payload)
                else
                  Raise (RuntimeError "Sizes of tensors must match except in the concatenation dimension")
            end
        end
  end.

(** [F.conv1d], [F.conv2d], [F.conv3d] with unit stride and dilation:
    [conv n input weight padding groups]. *)
Definition conv (n : nat) (input weight : Tensor) (padding : list Z) (groups : Z)
  : result Tensor :=
  match shape input, shape weight with
  | batch :: chns :: spatial, out_chns :: in_chns :: kernel =>
      if negb (bool_decide (length spatial = n) && bool_decide (length kernel = n)) then
        Raise (RuntimeError "expected input and weight with two more dimensions than the convolution")
      else if negb (bool_decide (dtype input = dtype weight)) then
        Raise (RuntimeError "input type and weight type should be the same")
      else if negb (bool_decide (device input = device weight)) then
        Raise (RuntimeError "input and weight should be on the same device")
      else if negb (bool_decide (0 < groups)) then
        Raise (RuntimeError "non-positive groups is not supported")
      else if negb (bool_decide (out_chns `mod` groups = 0)) then
        Raise (RuntimeError "expected weight to be at least groups at dimension 0, divisible by groups")
      else if negb (bool_decide (chns = in_chns * groups)) then
        Raise (RuntimeError "number of input channels does not match weight and groups")
      else if negb (bool_decide (length padding = n)) then
        Raise (RuntimeError "expected padding to be a list of one value per spatial dimension")
      else if existsb (fun p => bool_decide (p < 0)) padding then
        Raise (RuntimeError "negative padding is not supported")
      else
        let out := zip_with (fun ip k => ip - k + 1)
                     (zip_with (fun i p => i + 2 * p) spatial padding) kernel in
        if existsb (fun o => bool_decide (o < 1)) out then
          Raise (RuntimeError "Kernel size can't be greater than actual input size")
        else
          Ok (mkTensor (batch :: out_chns :: out) (dtype input) (device input)
                (Op "conv" (groups :: padding) [data input; data weight]))
  | _, _ =>
      Raise (RuntimeError "expected input and weight with two more dimensions than the convolution")
  end.

(** The number of spatial dimensions of an input of shape
    [[batch, channels, spatial...]]. *)
Definition spatial_rank (inputs : Tensor) : nat := (length (shape inputs) - 2)%nat.

(** ** Numbers of the configuration *)

(** [float(n)] for an integer in the range of a tensor size. *)
Definition float_of_Z (n : Z) : float :=
  if bool_decide (0 <= n) then PrimFloat.of_uint63 (Uint63.of_Z n)
  else PrimFloat.opp (PrimFloat.of_uint63 (Uint63.of_Z (- n))).

(** [int(x)]: truncation towards zero of a finite float. *)
Definition trunc (x : float) : Z :=
  match Prim2SF x with
  | S754_finite s m e =>
      let v := if bool_decide (0 <= e) then Z.pos m * 2 ^ e else Z.pos m `div` 2 ^ (- e) in
      if s then - v else v
  | _ => 0
  end.

Definition number (v : Value) : option float :=
  match v with
  | VFloat x => Some x
  | VInt n => Some (float_of_Z n)
  | VBool b => Some (if b then 1%float else 0%float)
  | _ => None
  end.

Definition integer (v : Value) : option Z :=
  match v with
  | VInt n => Some n
  | VBool b => Some (if b then 1 else 0)
  | _ => None
  end.

(** ** monai/inferers/utils.py

    [inferer.py] imports [sliding_window_inference] from this module, which
    is not among the sources; this section models it from the spec. *)

(** Modelled from the spec: the blend modes, "constant" (equal weight to
    all predictions) and "gaussian" (less weight towards the edges of a
    window). *)
Inductive BlendMode : Type := constant | gaussian.

(** Modelled from the spec: the spec's InferenceConfig, what a
    sliding-window run is configured with once read from the arguments:
    the window size per spatial axis, how many windows run together, the
    overlap fraction and the blend mode. *)
Record InferenceConfig : Type := mkInferenceConfig {
  window : list Z;
  window_batch : Z;
  overlap_fraction : float;
  blend : BlendMode
}.

(** Reading a value of the wrong kind is a type error of the language. *)
Definition require {A} (o : option A) (msg : string) : result A :=
  match o with
  | Some a => Ok a
  | None => Raise (TypeError msg)
  end.

(** Modelled from the spec: the window shape read from the argument, a
    sequence with one integer size per spatial dimension. *)
Definition read_window (roi_size : Value) : result (list Z) :=
  items ← require (sequence_items roi_size) "roi_size is not a sequence";
  require (mapM integer items) "roi_size holds a size that is not an integer".

(** Modelled from the spec: the configuration that [sliding_window_inference]
    (monai/inferers/utils.py, not among the sources) reads from its
    arguments. The spec has a call raise no configuration error, so no
    value is validated here; reading fails only as the language fails on a
    value of the wrong kind, with a [TypeError] where a sequence of
    integers, an integer or a number is needed, and with a [ValueError] on
    a name that is none of the enumerated blend modes. *)
Definition inference_config (roi_size sw_batch_size overlap blend_mode : Value)
  : result InferenceConfig :=
  roi ← read_window roi_size;
  n ← require (integer sw_batch_size) "sw_batch_size is not an integer";
  ov ← require (number overlap) "overlap is not a number";
  mode ← match blend_mode with
         | VStr "constant" => Ok constant
         | VStr "gaussian" => Ok gaussian
         | _ => Raise (ValueError "not a blend mode")
         end;
  mret (mkInferenceConfig roi n ov mode).

(** Modelled from the spec: the extent of a window on each spatial axis of
    the input, the configured size of the axis, no element when that size
    is negative; an axis without a configured size is taken whole. *)
Definition window_extent (spatial roi : list Z) : list Z :=
  imap (fun i sz => from_option (Z.max 0) sz (roi !! i)) spatial.

(** Modelled from the spec: the distance between two consecutive windows
    on an axis, the window size less the overlapping fraction of it, at
    least one. *)
Definition scan_interval (roi : Z) (overlap : float) : Z :=
  Z.max 1 (trunc (PrimFloat.mul (float_of_Z roi) (PrimFloat.sub 1 overlap))).

(** Modelled from the spec: where the windows start on an axis of [size_]
    elements. They follow one another at the scan interval; where they do
    not tile the axis evenly a final window, less than a full interval
    after the last one, ends with the axis. *)
Definition window_starts (size_ roi interval : Z) : list Z :=
  let strided := Z.to_nat ((size_ - roi + interval - 1) `div` interval) in
  ((fun k => Z.of_nat k * interval) <$> seq 0 strided) ++ [size_ - roi].

(** Every choice of one element per list. *)
Definition choices {A} (ls : list (list A)) : list (list A) :=
  foldr (fun l acc => x ← l; (x ::.) <$> acc) [[]] ls.

(** [l] cut into runs of [n] elements, the last one possibly shorter. *)
Fixpoint chunks_ {A} (fuel n : nat) (l : list A) : list (list A) :=
  match fuel, l with
  | S fuel', _ :: _ => take n l :: chunks_ fuel' n (drop n l)
  | _, _ => []
  end.
Definition chunks {A} (n : nat) (l : list A) : list (list A) := chunks_ (length l) n l.

(** Modelled from the spec: a window larger than the input on some axis
    makes the input padded up to the window on that axis. *)
Definition pad_to (extent : list Z) (t : Tensor) : Tensor :=
  match shape t with
  | batch :: chns :: spatial =>
      let padded := zip_with Z.max spatial extent in
      if bool_decide (padded = spatial) then t
      else mkTensor (batch :: chns :: padded) (dtype t) (device t) (Op "pad" padded [data t])
  | _ => t
  end.

(** Modelled from the spec: the window that starts at [at_], cut out of
    every image and every channel of the input. *)
Definition window_slice (extent : list Z) (t : Tensor) (at_ : list Z) : Tensor :=
  mkTensor (default 0 (shape t !! 0%nat) :: default 0 (shape t !! 1%nat) :: extent)
    (dtype t) (device t) (Op "slice" (at_ ++ extent) [data t]).

(** Modelled from the spec: the predictions of the windows blended back
    into one tensor of the full spatial size of the input, with the
    channels of the first prediction. Each prediction has to cover its
    windows, that is to have the window's extent on every spatial axis and
    the rows of its batch of windows, and all of them the same number of
    channels, or the framework fails to add it to the output; the parts
    where windows overlap are weighted by the blend mode. *)
Definition blend_windows (cfg : InferenceConfig) (batch : Z) (spatial extent : list Z)
    (positions : list (list (list Z))) (predictions : list Tensor)
  : result Tensor :=
  p0 ← getitem predictions 0;
  classes ← getitem (shape p0) 1;
  if forallb (fun bp : list (list Z) * Tensor =>
                bool_decide (shape bp.2 = Z.of_nat (length bp.1) * batch :: classes :: extent))
       (zip positions predictions) then
    Ok (mkTensor (batch :: classes :: spatial) (dtype p0) (device p0)
          (Op (match blend cfg with constant => "blend_constant" | gaussian => "blend_gaussian" end)
              (concat (concat positions))
              (data <$> predictions)))
  else Raise (RuntimeError "The size of a prediction must match the size of its window").

(** Modelled from the spec: [sliding_window_inference] of
    monai/inferers/utils.py, which is not among the sources. The input is
    partitioned into overlapping windows of the configured size, the
    windows are batched by the window batch size, the model is invoked once
    per batch, one batch after the other, and the predictions are blended
    back into a full-size output. Nothing is validated: what fails is a
    read of the language (a value of the wrong kind, a missing dimension)
    or an operation of the framework (a batch of no window cannot be
    concatenated, a prediction of another size cannot be blended). *)
Definition sliding_window_inference {W} (inputs : Tensor) (roi_size sw_batch_size : Value)
    (predictor : Tensor -> M W Tensor) (overlap blend_mode : Value) : M W Tensor :=
  match shape inputs with
  | batch :: chns :: spatial =>
      cfg ← lift (inference_config roi_size sw_batch_size overlap blend_mode);
      let extent := window_extent spatial (window cfg) in
      let padded := pad_to extent inputs in
      let starts := zip_with (fun sz e =>
                      window_starts (Z.max sz e) e (scan_interval e (overlap_fraction cfg)))
                      spatial extent in
      let batches := chunks (Z.to_nat (window_batch cfg)) (choices starts) in
      predictions ← mapM (fun ats =>
                       slices ← lift (cat (window_slice extent padded <$> ats) 0);
                       predictor slices) batches;
      lift (blend_windows cfg batch spatial extent batches predictions)
  | _ => raise (IndexError "tuple index out of range")
  end.

(** ** monai/inferers/inferer.py *)

(** A model: the callable an inferer runs. Calling it may change the state
    [W] it owns (running statistics, random generators). *)
Definition Network (W : Type) : Type := Tensor -> M W Tensor.

(** [class Inferer(ABC)]: the interface every inferer implements. An
    instance fixes what [__call__] does on an object of class [Self]. *)
Class Inferer (Self : Type) : Type :=
  Inferer__call__ : forall W, Tensor -> Network W -> M (Self * W) Tensor.
Arguments Inferer__call__ {Self _ W} inputs network.

(** [Inferer.__init__]: nothing beyond [object.__init__]. *)
Definition Inferer__init__ : result unit := Ok tt.

(** The body of the abstract method. *)
Definition Inferer__call__abstract {Self W} (inputs : Tensor) (network : Network W)
  : M (Self * W) Tensor :=
  raise (NotImplementedError "subclass will implement the operations.").

(** [class RegularInferer(Inferer)] has no attribute. *)
Record RegularInferer : Type := mkRegularInferer { }.

Definition RegularInferer__init__ : result RegularInferer :=
  _ ← Inferer__init__;
  mret mkRegularInferer.

Definition RegularInferer__call__ {W} (inputs : Tensor) (network : Network W)
  : M (RegularInferer * W) Tensor :=
  world_ (network inputs).

#[global] Instance RegularInferer_Inferer : Inferer RegularInferer :=
  fun W => @RegularInferer__call__ W.

(** [class SlidingWindowInferer(Inferer)] *)
Record SlidingWindowInferer : Type := mkSlidingWindowInferer {
  roi_size : Value;
  sw_batch_size : Value;
  overlap : Value;
  blend_mode : Value
}.

(** [def __init__(self, roi_size, sw_batch_size=1, overlap=0.25, blend_mode="constant")] *)
Definition SlidingWindowInferer_signature : Signature :=
  [("roi_size", None);
   ("sw_batch_size", Some (VInt 1));
   ("overlap", Some (VFloat 0.25));
   ("blend_mode", Some (VStr "constant"))].

Definition roi_message : string := "must specify the roi size for SlidingWindow.".

Definition SlidingWindowInferer__init__ (roi_size sw_batch_size overlap blend_mode : Value)
  : result SlidingWindowInferer :=
  _ ← Inferer__init__;
  _ ← assert_ (isinstance roi_size [T_list; T_tuple]) roi_message;
  mret {| roi_size := roi_size;
          sw_batch_size := sw_batch_size;
          overlap := overlap;
          blend_mode := blend_mode |}.

(** The class called with positional and keyword arguments: the arguments
    are bound to the parameters of [__init__], which then runs; the object
    exists only when it returns. *)
Definition SlidingWindowInferer_new (args : list Value) (kwargs : list (string * Value))
  : result SlidingWindowInferer :=
  params ← bind_args SlidingWindowInferer_signature args kwargs;
  match params with
  | [roi_size; sw_batch_size; overlap; blend_mode] =>
      SlidingWindowInferer__init__ roi_size sw_batch_size overlap blend_mode
  | _ => Raise (TypeError "__init__() takes 4 arguments")
  end.

Definition SlidingWindowInferer__call__ {W} (inputs : Tensor) (network : Network W)
  : M (SlidingWindowInferer * W) Tensor :=
  self ← gets fst;
  world_ (sliding_window_inference inputs (roi_size self) (sw_batch_size self) network
            (overlap self) (blend_mode self)).

#[global] Instance SlidingWindowInferer_Inferer : Inferer SlidingWindowInferer :=
  fun W => @SlidingWindowInferer__call__ W.

(** ** monai/networks/layers/simplelayers.py *)

(** [class SkipConnection(nn.Module)]: the submodule is a callable that
    owns state in [W]. *)
Record SkipConnection (W : Type) : Type := mkSkipConnection {
  submodule : Tensor -> M W Tensor;
  cat_dim : Value
}.
Arguments mkSkipConnection {W} submodule cat_dim.
Arguments submodule {W} s.
Arguments cat_dim {W} s.

(** [def __init__(self, submodule, cat_dim=1)] *)
Definition SkipConnection__init__ {W} (submodule : Tensor -> M W Tensor) (cat_dim : Value)
  : result (SkipConnection W) :=
  mret {| submodule := submodule; cat_dim := cat_dim |}.

(** [torch.cat([x, self.submodule(x)], self.cat_dim)]: the list is built
    first, so the submodule runs before the axis is read; the axis has to
    be an integer. *)
Definition SkipConnection_forward {W} (x : Tensor) : M (SkipConnection W * W) Tensor :=
  self ← gets fst;
  y ← world_ (submodule self x);
  self ← gets fst;
  match cat_dim self with
  | VInt d => lift (cat [x; y] d)
  | _ => raise (TypeError "cat(): argument 'dim' must be int")
  end.

(** [class Flatten(nn.Module)] has no attribute. *)
Record Flatten : Type := mkFlatten { }.

(** [x.view(x.size(0), -1)] *)
Definition Flatten_forward {W} (x : Tensor) : M (Flatten * W) Tensor :=
  b ← lift (size x 0);
  lift (view x [b; -1]).

(** [class GaussianFilter(nn.Module)], as [__init__] leaves it: the number
    of spatial dimensions, one 1-D kernel and one padding per spatial axis,
    and [conv_n] the [n] of the convolution picked among [F.conv1d],
    [F.conv2d] and [F.conv3d]. *)
Record GaussianFilter : Type := mkGaussianFilter {
  spatial_dims : Z;
  kernel : list Tensor;
  padding : list Z;
  conv_n : nat
}.

(** The inner function [_conv(input_, d)] of [forward], by recursion on
    [d + 1]; Python evaluates the kernel and the padding of axis [d] before
    the argument [_conv(input_, d - 1)]. *)
Fixpoint GaussianFilter_conv (self : GaussianFilter) (chns : Z) (input_ : Tensor) (d1 : nat)
  : result Tensor :=
  match d1 with
  | O => Ok input_
  | S d1' =>
      let d := Z.of_nat d1' in
      let sp_dim := spatial_dims self in
      let s := py_replicate 1 (sp_dim + 2) in
      s ← setitem s (d + 2) (-1);
      k ← getitem (kernel self) d;
      k ← reshape k s;
      k ← repeat_ k ([chns; 1] ++ py_replicate 1 sp_dim);
      let padding_ := py_replicate 0 sp_dim in
      p ← getitem (padding self) d;
      padding_ ← setitem padding_ d p;
      inner ← GaussianFilter_conv self chns input_ d1';
      conv (conv_n self) inner k padding_ chns
  end.

Definition GaussianFilter_forward {W} (x : Tensor) : M (GaussianFilter * W) Tensor :=
  self ← gets fst;
  chns ← lift (getitem (shape x) 1);
  let sp_dim := spatial_dims self in
  k0 ← lift (getitem (kernel self) 0);
  let x := contiguous (to (as_tensor x) k0) in
  lift (GaussianFilter_conv self chns x (Z.to_nat sp_dim)).

(** ** Properties of models *)

(** A model that keeps the batch and the spatial sizes of what it is given
    and emits [classes] channels, as a fully convolutional segmentation
    network with same-size padding does. *)
Definition keeps_spatial_sizes {W} (network : Network W) (classes : Z) : Prop :=
  forall (t : Tensor) (w : W) (n c : Z) (sp : list Z),
    shape t = n :: c :: sp ->
    exists t' w', network t w = (Ok t', w') /\ shape t' = n :: classes :: sp.


(** A model that owns no state: a call leaves the world as it was. *)
Definition stateless {W} (network : Network W) : Prop :=
  forall (t : Tensor) (w : W), (network t w).2 = w.

(** Two models on a world without state, used as examples: a segmentation
    network with two output channels that keeps the spatial sizes, and a
    network that resamples whatever it is given to 2 x 2. *)
Definition segmentation_net : Network unit := fun t =>
  mret (mkTensor (match shape t with n :: _ :: sp => n :: 2 :: sp | s => s end)
          (dtype t) (device t) (Op "segmentation_net" [] [data t])).


(** A model with state, used as an example: like a normalisation layer in
    training mode it counts its calls, and what it returns depends on the
    count. *)
Definition counting_net : Network nat := fun t calls =>
  (Ok (mkTensor (shape t) (dtype t) (device t)
         (Op "counting_net" [Z.of_nat calls] [data t])),
   S calls).

(** A model whose output has the dtype and is on the device of its input. *)
Definition keeps_dtype_device {W} (network : Network W) : Prop :=
  forall (t t' : Tensor) (w w' : W),
    network t w = (Ok t', w') -> dtype t' = dtype t /\ device t' = device t.

(** ** Construction of a skip connection *)

(** [def __init__(self, submodule, cat_dim=1)]: the parameters that follow
    [submodule]. *)
Definition SkipConnection_signature : Signature := [("cat_dim", Some (VInt 1))].

(** The class called with the submodule as its first positional argument,
    followed by the positional arguments [args] and the keyword arguments
    [kwargs]. *)
Definition SkipConnection_new {W} (submodule : Tensor -> M W Tensor)
    (args : list Value) (kwargs : list (string * Value)) : result (SkipConnection W) :=
  params ← bind_args SkipConnection_signature args kwargs;
  match params with
  | [cat_dim] => SkipConnection__init__ submodule cat_dim
  | _ => Raise (TypeError "__init__() takes 2 arguments")
  end.

(** ** Gaussian filters as the constructor leaves them *)

(** [k.size()[0]] of each kernel. *)
Definition kernel_sizes (self : GaussianFilter) : list Z :=
  (fun k => default 0 (shape k !! 0%nat)) <$> kernel self.

(** A filter for [n] spatial dimensions in working order, as
    [GaussianFilter.__init__] builds it from 1-D kernels: [n] kernels, each
    a 1-D tensor of at least one element, all of one dtype and on one
    device, one non-negative padding per kernel, and the convolution for
    [n] spatial dimensions. *)
Definition GaussianFilter_wf (n : nat) (self : GaussianFilter) : Prop :=
  spatial_dims self = Z.of_nat n
  /\ conv_n self = n
  /\ length (kernel self) = n
  /\ length (padding self) = n
  /\ Forall (fun k => exists K, shape k = [K] /\ 1 <= K) (kernel self)
  /\ (forall k k', k ∈ kernel self -> k' ∈ kernel self ->
        dtype k = dtype k' /\ device k = device k')
  /\ Forall (fun p => 0 <= p) (padding self).

(** The spatial sizes once the first [d] axes went through their
    convolution: an axis of [s] elements, padded by [p] on both sides and
    convolved with a kernel of [k] elements, has [s + 2 * p - k + 1]. *)
Definition smoothed_sizes (d : nat) (spatial pads kernels : list Z) : list Z :=
  imap (fun i s => if decide (i < d)%nat
                   then s + 2 * default 0 (pads !! i) - default 0 (kernels !! i) + 1
                   else s) spatial.

(** ** GaussianFilter.__init__ *)

(** A numpy array, as far as the constructor looks at it: its shape and
    the term of its values. *)
Record NdArray : Type := mkNdArray {
  array_shape : list Z;
  array_data : Data
}.

(** What [GaussianFilter.__init__] calls from
    [monai.networks.layers.convutils] and [monai.utils.misc], which are not
    among the sources; the constructor is modelled over any three such
    functions. *)
Record ConvUtils : Type := mkConvUtils {
  ensure_tuple_rep : Value -> Z -> result (list Value);
  gaussian_1d : Value -> Value -> result NdArray;
  same_padding : Z -> result Z
}.

(** [torch.nn.Parameter(torch.as_tensor(a, dtype=torch.float32), False)] *)
Definition float32_parameter (a : NdArray) : Tensor :=
  mkTensor (array_shape a) float32 cpu (Op "as_tensor" [] [array_data a]).

(** [def __init__(self, spatial_dims, sigma, truncated=4.0)] for an
    integer [spatial_dims], on which [int(spatial_dims)] is the argument
    itself. The object comes with the parameters that
    [register_parameter] recorded under their names. *)
Definition GaussianFilter__init__ (lib : ConvUtils) (spatial_dims : Z)
    (sigma truncated : Value) : result (GaussianFilter * list (string * Tensor)) :=
  _sigma ← ensure_tuple_rep lib sigma spatial_dims;
  kernel ← mapM (fun s => a ← gaussian_1d lib s truncated; mret (float32_parameter a)) _sigma;
  padding ← mapM (fun k => n ← getitem (shape k) 0; same_padding lib n) kernel;
  conv_n ← getitem [1; 2; 3]%nat (spatial_dims - 1);
  mret (mkGaussianFilter spatial_dims kernel padding conv_n,
        imap (fun idx param => ("kernel_" +:+ pretty idx, param)) kernel).

(** A library of helpers used as an example: [sigma] repeated once per
    dimension, kernels of five elements, and half the kernel less one half
    as padding. *)
Definition example_convutils : ConvUtils :=
  {| ensure_tuple_rep := fun v n => Ok (replicate (Z.to_nat n) v);
     gaussian_1d := fun _ _ => Ok (mkNdArray [5] (Leaf 7));
     same_padding := fun k => Ok ((k - 1) `div` 2) |}.

(** * Properties *)

(** ** Running a computation *)

Lemma run_bind {S A B} (m : M S A) (f : A -> M S B) (s : S) :
  (m ≫= f) s = match m s with
               | (Ok a, s') => f a s'
               | (Raise e, s') => (Raise e, s')
               end.
Proof. reflexivity. Qed.

Lemma run_lift {S A} (r : result A) (s : S) : lift r s = (r, s).
Proof. reflexivity. Qed.

Lemma run_gets {S A} (f : S -> A) (s : S) : gets f s = (Ok (f s), s).
Proof. reflexivity. Qed.

Lemma run_world {Self W A} (m : M W A) (self : Self) (w : W) :
  world_ m (self, w) = ((m w).1, (self, (m w).2)).
Proof. unfold world_. cbn. by destruct (m w). Qed.

(** Runs a method body as far as its next call that has to be looked at. *)
Ltac run :=
  cbn [fst snd];
  repeat (first [rewrite run_bind | rewrite run_gets | rewrite run_lift | rewrite run_world];
          cbn [fst snd]).

(** ** Construction of the sliding-window inferer *)

Lemma SlidingWindowInferer__init__spec roi sw ov bm :
  SlidingWindowInferer__init__ roi sw ov bm =
    if isinstance roi [T_list; T_tuple]
    then Ok (mkSlidingWindowInferer roi sw ov bm)
    else Raise (AssertionError roi_message).
Proof.
  unfold SlidingWindowInferer__init__.
  by destruct (isinstance roi [T_list; T_tuple]).
Qed.

Lemma SlidingWindowInferer_new_bound args kwargs roi sw ov bm :
  bind_args SlidingWindowInferer_signature args kwargs = Ok [roi; sw; ov; bm] ->
  SlidingWindowInferer_new args kwargs = SlidingWindowInferer__init__ roi sw ov bm.
Proof. intros Hb. unfold SlidingWindowInferer_new. by rewrite Hb. Qed.

(** C1. Constructing a [SlidingWindowInferer] whose [roi_size] argument,
    however it is passed, is not an instance of [list] or [tuple] raises
    the assertion error of [__init__]: the construction returns no object,
    so no inference call can follow it. *)
Theorem SlidingWindowInferer_rejects_non_sequence args kwargs roi sw ov bm :
  bind_args SlidingWindowInferer_signature args kwargs = Ok [roi; sw; ov; bm] ->
  isinstance roi [T_list; T_tuple] = false ->
  SlidingWindowInferer_new args kwargs = Raise (AssertionError roi_message).
Proof.
  intros Hb Hroi.
  rewrite (SlidingWindowInferer_new_bound _ _ _ _ _ _ Hb).
  rewrite SlidingWindowInferer__init__spec. by rewrite Hroi.
Qed.

Lemma SlidingWindowInferer_rejects_non_sequence_witness :
  SlidingWindowInferer_new [VInt 64] [("overlap", VFloat 0.5)]
  = Raise (AssertionError roi_message).
Proof.
  apply (SlidingWindowInferer_rejects_non_sequence
           [VInt 64] [("overlap", VFloat 0.5)]
           (VInt 64) (VInt 1) (VFloat 0.5) (VStr "constant")).
  - vm_compute. reflexivity.
  - vm_compute. reflexivity.
Defined.

Example isinstance_sequence_classes :
  isinstance (VTuple [VInt 96; VInt 96]) [T_list; T_tuple] = true
  /\ isinstance (VObject (T_class "torch.Size" T_tuple) [VInt 96]) [T_list; T_tuple] = true
  /\ isinstance (VObject (T_class "numpy.ndarray" T_object) [VInt 96]) [T_list; T_tuple] = false
  /\ isinstance (VInt 96) [T_list; T_tuple] = false
  /\ isinstance VNone [T_list; T_tuple] = false.
Proof. repeat split. Qed.

(** C2, as the code has it. [__init__] is given no input and never looks at
    the length of the window shape: a list or a tuple of sizes, however it
    is passed and whatever the other arguments, is accepted and stored
    unchanged also when the number of its sizes differs from the spatial
    dimensionality of an input. *)
Theorem SlidingWindowInferer_accepts_any_dimensionality
    (inputs : Tensor) (args : list Value) (kwargs : list (string * Value))
    (roi sw ov bm : Value) (sizes : list Value) :
  bind_args SlidingWindowInferer_signature args kwargs = Ok [roi; sw; ov; bm] ->
  isinstance roi [T_list; T_tuple] = true ->
  sequence_items roi = Some sizes ->
  length sizes ≠ spatial_rank inputs ->
  SlidingWindowInferer_new args kwargs = Ok (mkSlidingWindowInferer roi sw ov bm).
Proof.
  intros Hb Hroi _ _.
  rewrite (SlidingWindowInferer_new_bound _ _ _ _ _ _ Hb).
  rewrite SlidingWindowInferer__init__spec. by rewrite Hroi.
Qed.

Lemma SlidingWindowInferer_accepts_any_dimensionality_witness :
  SlidingWindowInferer_new [VTuple [VInt 64; VInt 64]] [("sw_batch_size", VInt 4)]
  = Ok (mkSlidingWindowInferer (VTuple [VInt 64; VInt 64]) (VInt 4) (VFloat 0.25)
          (VStr "constant")).
Proof.
  apply (SlidingWindowInferer_accepts_any_dimensionality
           (mkTensor [1; 1; 96; 96; 96] float32 cpu (Leaf 0))
           [VTuple [VInt 64; VInt 64]] [("sw_batch_size", VInt 4)]
           (VTuple [VInt 64; VInt 64]) (VInt 4) (VFloat 0.25) (VStr "constant")
           [VInt 64; VInt 64]).
  - vm_compute. reflexivity.
  - vm_compute. reflexivity.
  - reflexivity.
  - vm_compute. lia.
Defined.

(** C2 as claimed fails: a one-dimensional window shape for a volume with
    three spatial dimensions raises nothing at construction time. *)
Lemma SlidingWindowInferer_wrong_dimensionality_not_rejected :
  ~ (forall (inputs : Tensor) (sizes : list Value),
       length sizes ≠ spatial_rank inputs ->
       exists e, SlidingWindowInferer_new [VList sizes] [] = Raise e).
Proof.
  intros claim.
  destruct (claim (mkTensor [1; 1; 96; 96; 96] float32 cpu (Leaf 0)) [VInt 64]) as [e He].
  - vm_compute. lia.
  - discriminate He.
Qed.

(** C3. The regular inferer called on inputs [X] and a model [M] returns
    what [M X] returns and leaves the world as [M X] leaves it; nothing is
    applied to the input or to the output. The same holds when the call
    goes through the [Inferer] interface. *)
Theorem RegularInferer_returns_network_output {W} (inputs : Tensor) (network : Network W)
    (self : RegularInferer) (w : W) :
  RegularInferer__call__ inputs network (self, w)
  = ((network inputs w).1, (self, (network inputs w).2))
  /\ Inferer__call__ inputs network (self, w)
     = RegularInferer__call__ inputs network (self, w).
Proof.
  split; [|reflexivity].
  unfold RegularInferer__call__. apply run_world.
Qed.

(** C8. Called with the window shape alone, the constructor stores window
    batch size 1, overlap 0.25 and blend mode "constant"; called without a
    window shape, even with the three other arguments, it is a type error:
    the window shape is the one parameter without a default. *)
Theorem SlidingWindowInferer_defaults :
  (forall roi : Value,
     SlidingWindowInferer_new [roi] []
     = SlidingWindowInferer__init__ roi (VInt 1) (VFloat 0.25) (VStr "constant"))
  /\ (forall sizes : list Value,
        SlidingWindowInferer_new [VList sizes] []
        = Ok (mkSlidingWindowInferer (VList sizes) (VInt 1) (VFloat 0.25) (VStr "constant"))
        /\ SlidingWindowInferer_new [VTuple sizes] []
           = Ok (mkSlidingWindowInferer (VTuple sizes) (VInt 1) (VFloat 0.25) (VStr "constant")))
  /\ (forall sw ov bm : Value,
        SlidingWindowInferer_new []
          [("sw_batch_size", sw); ("overlap", ov); ("blend_mode", bm)]
        = Raise (TypeError "missing required argument: roi_size"))
  /\ (fun p : string * option Value => p.1) <$>
       filter (fun p : string * option Value => p.2 = None) SlidingWindowInferer_signature
     = ["roi_size"].
Proof. repeat split. Qed.

(** C10. Whatever the values of [sw_batch_size], [overlap] and
    [blend_mode], passed by position or by keyword, the outcome of the
    construction depends on the window shape alone: when it is a list or a
    tuple the object is built and holds the four arguments unchanged, and
    otherwise the assertion fails. *)
Theorem SlidingWindowInferer_validates_roi_only (roi sw ov bm : Value) :
  let outcome :=
    if isinstance roi [T_list; T_tuple]
    then Ok (mkSlidingWindowInferer roi sw ov bm)
    else Raise (AssertionError roi_message) in
  SlidingWindowInferer_new [roi; sw; ov; bm] [] = outcome
  /\ SlidingWindowInferer_new [roi]
       [("sw_batch_size", sw); ("overlap", ov); ("blend_mode", bm)] = outcome.
Proof.
  split.
  - rewrite (SlidingWindowInferer_new_bound _ _ roi sw ov bm) by reflexivity.
    apply SlidingWindowInferer__init__spec.
  - rewrite (SlidingWindowInferer_new_bound _ _ roi sw ov bm) by reflexivity.
    apply SlidingWindowInferer__init__spec.
Qed.

Example SlidingWindowInferer_unvalidated_values :
  SlidingWindowInferer_new [VTuple [VInt 96; VInt 96]; VInt (-4); VFloat 1.5; VStr "median"] []
  = Ok (mkSlidingWindowInferer (VTuple [VInt 96; VInt 96]) (VInt (-4)) (VFloat 1.5) (VStr "median")).
Proof. reflexivity. Qed.

(** ** Flatten *)

Lemma size_first (x : Tensor) b ds : shape x = b :: ds -> size x 0 = Ok b.
Proof. intros Hs. unfold size. by rewrite Hs. Qed.

Lemma infer_size_batch_rest (b p : Z) :
  0 < b -> infer_size [b; -1] (b * p) = Ok [b; p].
Proof.
  intros Hb. unfold infer_size. cbn [scan_shape].
  rewrite (bool_decide_eq_false_2 (b = -1)) by lia.
  rewrite (bool_decide_eq_true_2 (0 <= b)) by lia.
  rewrite !(bool_decide_eq_true_2 (-1 = -1)) by done.
  cbn [mbind result_bind andb]. replace (1 * b) with b by lia.
  rewrite (bool_decide_eq_true_2 (0 < b)) by lia.
  rewrite (bool_decide_eq_true_2 ((b * p) `mod` b = 0))
    by (rewrite Z.mul_comm; apply Z_mod_mult).
  rewrite orb_true_r.
  rewrite (bool_decide_eq_false_2 (b = 0)) by lia.
  cbn [fmap list_fmap].
  rewrite (bool_decide_eq_false_2 (b = -1)) by lia.
  rewrite (bool_decide_eq_true_2 (-1 = -1)) by done.
  do 3 f_equal. rewrite Z.mul_comm. apply Z_div_mult. lia.
Qed.

(** ** Layout: the views a tensor admits *)

Lemma prod__app (l k : list Z) : prod_ (l ++ k) = prod_ l * prod_ k.
Proof.
  induction l as [|a l IH]; cbn [app prod_ foldr].
  - fold (prod_ k). lia.
  - fold (prod_ (l ++ k)). fold (prod_ l). rewrite IH. lia.
Qed.

Lemma prod__reverse (l : list Z) : prod_ (reverse l) = prod_ l.
Proof.
  induction l as [|a l IH]; [done|].
  rewrite reverse_cons, prod__app, IH. cbn [prod_ foldr]. fold (prod_ l). lia.
Qed.

Lemma prod__ge_1 (l : list Z) : Forall (fun d => 1 <= d) l -> 1 <= prod_ l.
Proof.
  induction 1 as [|a l Ha _ IH]; cbn [prod_ foldr]; [lia|].
  fold (prod_ l). nia.
Qed.

Lemma sizes_positive (l : list Z) :
  Forall (fun d => 0 <= d) l -> prod_ l <> 0 -> Forall (fun d => 1 <= d) l.
Proof.
  induction 1 as [|a l Ha _ IH]; cbn [prod_ foldr]; [constructor|].
  fold (prod_ l). intros Hp.
  assert (a <> 0 /\ prod_ l <> 0) as [? ?] by (split; intros E; rewrite E in Hp; lia).
  constructor; [lia|]. by apply IH.
Qed.

Lemma cover_chunk_length rview : forall vn T base acc rview' vn' acc',
  cover_chunk rview vn T base acc = (rview', vn', acc') ->
  (length acc' + length rview' = length acc + length rview)%nat.
Proof.
  induction rview as [|v rest IH]; intros vn T base acc rview' vn' acc'; cbn [cover_chunk].
  - intros [= <- _ <-]. done.
  - destruct (_ || _).
    + intros Hc%IH. cbn [length] in *. lia.
    + intros [= <- _ <-]. done.
Qed.

Lemma view_chunks_length rold : forall rview base tn acc st,
  view_chunks rold rview base tn acc = Some st ->
  length st = (length acc + length rview)%nat.
Proof.
  induction rold as [|[sz s] rest IH]; intros rview base tn acc st; cbn [view_chunks].
  - destruct rview; [|discriminate]. intros [= <-]. cbn. lia.
  - destruct (match rest with [] => true | _ => _ end).
    + destruct (cover_chunk rview 1 (tn * sz) base acc) as [[rview' vn'] acc'] eqn:Hc.
      apply cover_chunk_length in Hc.
      destruct (bool_decide (vn' = tn * sz)); [|discriminate].
      destruct rest as [|[psz pst] rest']; intros Hv%IH; lia.
    + apply IH.
Qed.

(** Over a chunk of one element the view gives up its leading dimensions
    of size one, and nothing else. *)
Lemma cover_chunk_ones rview : forall base acc,
  Forall (fun d => 1 <= d) rview ->
  exists rview' acc',
    cover_chunk rview 1 1 base acc = (rview', 1, acc')
    /\ prod_ rview' = prod_ rview /\ Forall (fun d => 1 <= d) rview'.
Proof.
  induction rview as [|v rest IH]; intros base acc Hall; cbn [cover_chunk].
  - by eexists _, _.
  - rewrite (bool_decide_eq_false_2 (1 < 1)) by lia. cbn [orb].
    case_bool_decide as Hv.
    + subst v. apply Forall_cons in Hall as [_ Hall].
      destruct (IH base (1 * base :: acc) Hall) as (rview' & acc' & Hc & Hp & Hall').
      exists rview', acc'. split_and!; [done| |done].
      rewrite Hp. cbn [prod_ foldr]. fold (prod_ rest). lia.
    + by eexists _, _.
Qed.

(** Dimensions that multiply to the size of the chunk cover it. *)
Lemma cover_chunk_all rview : forall vn T base acc,
  Forall (fun d => 1 <= d) rview ->
  1 <= vn ->
  vn * prod_ rview = T ->
  exists acc', cover_chunk rview vn T base acc = ([], T, acc').
Proof.
  induction rview as [|v rest IH]; intros vn T base acc Hall Hvn HT; cbn [cover_chunk].
  - cbn in HT. exists acc. do 2 f_equal. lia.
  - apply Forall_cons in Hall as [Hv Hall].
    pose proof (prod__ge_1 rest Hall) as Hrest.
    cbn [prod_ foldr] in HT. fold (prod_ rest) in HT.
    assert (bool_decide (vn < T) || bool_decide (v = 1) = true) as ->.
    { destruct (decide (vn < T)) as [Hlt|Hge].
      - by rewrite (bool_decide_eq_true_2 _ Hlt).
      - rewrite (bool_decide_eq_true_2 (v = 1)); [apply orb_true_r|].
        assert (v * prod_ rest <= 1) by nia. nia. }
    apply IH; [done|nia|lia].
Qed.

(** A contiguous tensor with elements admits every view of as many
    elements: no chunk ends before the first dimension, except one that
    holds the trailing dimensions of size one. *)
Lemma view_chunks_contiguous rold : forall rview base tn acc,
  rold <> [] ->
  Forall (fun p => 1 <= p.1) rold ->
  Forall (fun d => 1 <= d) rview ->
  contiguous_from rold tn = true ->
  match rold with (sz, _) :: _ => base = 1 \/ tn * sz = 1 | [] => True end ->
  prod_ rview = tn * prod_ (fst <$> rold) ->
  1 <= tn ->
  is_Some (view_chunks rold rview base tn acc).
Proof.
  induction rold as [|[sz s] rest IH]; intros rview base tn acc Hne Hold Hview Hc Hhead Hprod Htn;
    [done|].
  apply Forall_cons in Hold as [Hsz Hold]. cbn [fst] in Hsz.
  cbn [fmap list_fmap prod_ foldr fst] in Hprod. fold (prod_ (fst <$> rest)) in Hprod.
  destruct rest as [|[psz pst] rest'].
  - cbn [view_chunks].
    destruct (cover_chunk_all rview 1 (tn * sz) base acc) as [acc' ->]; [done|lia| |].
    { rewrite Hprod. cbn. lia. }
    rewrite bool_decide_eq_true_2 by done. done.
  - assert (contiguous_from ((psz, pst) :: rest') (tn * sz) = true) as Hc'.
    { cbn [contiguous_from] in Hc. case_bool_decide as H1.
      - subst sz. by rewrite Z.mul_1_r.
      - by apply andb_prop in Hc as [_ Hc]. }
    assert (psz <> 1 -> pst = tn * sz) as Hpst.
    { intros Hp. cbn [contiguous_from] in Hc'.
      rewrite (bool_decide_eq_false_2 _ Hp) in Hc'.
      apply andb_prop in Hc' as [Hc' _]. by apply bool_decide_eq_true in Hc'. }
    pose proof (Hold' := Hold). apply Forall_cons in Hold' as [Hpsz _]. cbn [fst] in Hpsz.
    cbn [view_chunks].
    destruct (bool_decide (psz ≠ 1) && bool_decide (pst ≠ tn * sz * base)) eqn:Hends.
    + apply andb_prop in Hends as [Hp Hends].
      apply bool_decide_eq_true in Hp. apply bool_decide_eq_true in Hends.
      specialize (Hpst Hp).
      assert (tn * sz = 1) as H1.
      { destruct Hhead as [->|]; [|done]. exfalso. apply Hends. lia. }
      rewrite H1.
      destruct (cover_chunk_ones rview base acc Hview) as (rview' & acc' & -> & Hp' & Hview').
      rewrite bool_decide_eq_true_2 by done.
      apply IH; [done|done|done|by rewrite <- H1|left; lia| |lia].
      rewrite Hp', Hprod, Z.mul_assoc, H1. done.
    + apply IH; [done|done|done|done| | |nia].
      * destruct Hhead as [->|H1]; [by left|].
        apply andb_false_iff in Hends as [Hp|Hends].
        -- apply bool_decide_eq_false in Hp. right. lia.
        -- apply bool_decide_eq_false in Hends.
           destruct (decide (psz = 1)) as [->|Hp]; [right; lia|].
           specialize (Hpst Hp). left. lia.
      * rewrite Hprod, Z.mul_assoc. done.
Qed.

Lemma view_strides_contiguous (t : Tensor) (sizes : list Z) :
  Tensor_wf t ->
  is_contiguous t = true ->
  Forall (fun d => 0 <= d) sizes ->
  prod_ sizes = numel t ->
  is_Some (view_strides (shape t) (strides t) sizes).
Proof.
  intros [Hlen Hpos] Hc Hsizes Hprod. unfold view_strides.
  case_bool_decide as Hnil; [done|].
  case_bool_decide as H0; [by case_bool_decide|].
  unfold is_contiguous, numel in Hc.
  rewrite (bool_decide_eq_false_2 _ H0) in Hc. cbn [orb] in Hc.
  assert (fst <$> reverse (zip (shape t) (strides t)) = reverse (shape t)) as Hfst.
  { rewrite fmap_reverse, fst_zip; [done|lia]. }
  assert (snd <$> reverse (zip (shape t) (strides t)) = reverse (strides t)) as Hsnd.
  { rewrite fmap_reverse, snd_zip; [done|lia]. }
  assert (Forall (fun p : Z * Z => 1 <= p.1) (reverse (zip (shape t) (strides t)))) as Hold.
  { apply (Forall_fmap fst (fun d => 1 <= d)). rewrite Hfst.
    apply Forall_reverse. by apply sizes_positive. }
  apply view_chunks_contiguous; [|done| |done| | |lia].
  - intros E. rewrite E in Hfst. cbn in Hfst. symmetry in Hfst.
    apply (f_equal reverse) in Hfst. rewrite reverse_involutive in Hfst. done.
  - apply Forall_reverse, sizes_positive; [done|]. unfold numel in Hprod. by rewrite Hprod.
  - destruct (reverse (zip (shape t) (strides t))) as [|[sz s] rest]; [done|].
    cbn [fmap list_fmap snd] in Hsnd.
    apply (f_equal reverse) in Hsnd. rewrite reverse_involutive, reverse_cons in Hsnd.
    rewrite <- Hsnd, last_snoc. cbn [default].
    cbn [contiguous_from] in Hc. case_bool_decide as H1; [right; lia|].
    apply andb_prop in Hc as [Hc _]. apply bool_decide_eq_true in Hc. by left.
  - rewrite Hfst, !prod__reverse. unfold numel in Hprod. lia.
Qed.

(** No tensor admits a view with a negative size. *)
Lemma view_chunks_negative rold : forall N B base tn acc,
  N < 0 < B -> view_chunks rold [N; B] base tn acc = None.
Proof.
  induction rold as [|[sz s] rest IH]; intros N B base tn acc HN; [done|].
  cbn [view_chunks].
  destruct (match rest with [] => true | _ => _ end); [|by apply IH].
  cbn [cover_chunk].
  rewrite (bool_decide_eq_false_2 (N = 1)) by lia. rewrite orb_false_r.
  case_bool_decide as H1.
  - rewrite (bool_decide_eq_true_2 (1 * N < tn * sz)) by lia. cbn [orb].
    rewrite bool_decide_eq_false_2 by nia. done.
  - case_bool_decide as H2; [|done]. destruct rest as [|[??]?]; by apply IH.
Qed.

(** A tensor of two dimensions admits the view of its own sizes. *)
Lemma view_strides_same_2d (B N s1 s2 : Z) :
  1 <= B -> 1 <= N -> is_Some (view_strides [B; N] [s1; s2] [B; N]).
Proof.
  intros HB HN. unfold view_strides.
  rewrite (bool_decide_eq_false_2 ([B; N] = [])) by done.
  rewrite (bool_decide_eq_false_2 (prod_ [B; N] = 0)) by (cbn; nia).
  change (reverse (zip [B; N] [s1; s2])) with [(N, s2); (B, s1)].
  change (reverse [B; N]) with [N; B].
  cbn [view_chunks cover_chunk last default].
  repeat (case_bool_decide; cbn [orb andb view_chunks cover_chunk]); try done; try nia.
Qed.

(** A view of two dimensions can be taken again. *)
Lemma view_strides_again (sh st0 st : list Z) (B N : Z) :
  sh <> [] ->
  prod_ sh = B * N ->
  0 < B ->
  view_strides sh st0 [B; N] = Some st ->
  is_Some (view_strides [B; N] st [B; N]).
Proof.
  intros Hne Hprod HB Hv.
  destruct (decide (B * N = 0)) as [H0|H0].
  { unfold view_strides. rewrite (bool_decide_eq_false_2 ([B; N] = [])) by done.
    rewrite (bool_decide_eq_true_2 (prod_ [B; N] = 0)) by (cbn; lia).
    by rewrite bool_decide_eq_true_2. }
  unfold view_strides in Hv.
  rewrite (bool_decide_eq_false_2 _ Hne), (bool_decide_eq_false_2 (prod_ sh = 0)) in Hv by lia.
  change (reverse [B; N]) with [N; B] in Hv.
  destruct (decide (N < 0)) as [HN|HN].
  { rewrite view_chunks_negative in Hv by lia. discriminate. }
  apply view_chunks_length in Hv.
  destruct st as [|s1 [|s2 [|]]]; try discriminate Hv.
  apply view_strides_same_2d; nia.
Qed.

Lemma prod__nonneg (l : list Z) : Forall (fun d => 0 <= d) l -> 0 <= prod_ l.
Proof.
  induction 1 as [|a l Ha _ IH]; cbn [prod_ foldr]; [lia|].
  fold (prod_ l). nia.
Qed.

(** [Flatten.forward] on an input with a first dimension of at least one
    element: the sizes of the view are found, its strides are looked for. *)
Lemma Flatten_forward_view {W} (x : Tensor) (B : Z) (ds : list Z) (self : Flatten) (w : W) :
  shape x = B :: ds ->
  0 < B ->
  Flatten_forward x (self, w)
  = (match view_strides (shape x) (strides x) [B; prod_ ds] with
     | Some st =>
         Ok (mkStrided [B; prod_ ds] st (dtype x) (device x) (Op "view" [B; prod_ ds] [data x]))
     | None =>
         Raise (RuntimeError "view size is not compatible with input tensor's size and stride")
     end, (self, w)).
Proof.
  intros Hs HB. unfold Flatten_forward.
  rewrite run_bind, run_lift, (size_first x B ds Hs), run_lift.
  unfold view, numel. rewrite Hs at 1.
  change (prod_ (B :: ds)) with (B * prod_ ds).
  by rewrite (infer_size_batch_rest B (prod_ ds) HB).
Qed.

(** C5, as the code has it. On a contiguous input of shape
    [[B, d1, d2, ...]] with at least one row ([0 < B]) the forward pass of
    [Flatten] returns a tensor of shape [[B, d1 * d2 * ...]], of the dtype
    and on the device of the input, and changes neither the layer nor the
    world. *)
Theorem Flatten_forward_shape {W} (x : Tensor) (B : Z) (ds : list Z)
    (self : Flatten) (w : W) :
  Tensor_wf x ->
  is_contiguous x = true ->
  shape x = B :: ds ->
  0 < B ->
  exists out,
    Flatten_forward x (self, w) = (Ok out, (self, w))
    /\ shape out = [B; prod_ ds]
    /\ dtype out = dtype x /\ device out = device x.
Proof.
  intros Hwf Hc Hs HB.
  rewrite (Flatten_forward_view x B ds self w Hs HB).
  destruct (view_strides_contiguous x [B; prod_ ds] Hwf Hc) as [st ->].
  - destruct Hwf as [_ Hpos]. rewrite Hs in Hpos. apply Forall_cons in Hpos as [_ Hpos].
    repeat constructor; [lia|by apply prod__nonneg].
  - unfold numel. rewrite Hs. change (prod_ (B :: ds)) with (B * prod_ ds).
    cbn [prod_ foldr]. fold (prod_ ds). lia.
  - eexists. split; [reflexivity|]. by cbn.
Qed.

Lemma Flatten_forward_shape_witness :
  exists out,
    Flatten_forward (mkTensor [2; 3; 4; 5] float32 cpu (Leaf 0)) (mkFlatten, tt)
    = (Ok out, (mkFlatten, tt))
    /\ shape out = [2; 60]
    /\ dtype out = float32 /\ device out = cpu.
Proof.
  apply (Flatten_forward_shape (mkTensor [2; 3; 4; 5] float32 cpu (Leaf 0)) 2 [3; 4; 5]).
  - split; [reflexivity|]. repeat constructor; lia.
  - reflexivity.
  - reflexivity.
  - lia.
Defined.

(** C5 as claimed fails twice over. On an empty batch, even a contiguous
    one, the size that [-1] stands for is ambiguous and [view] raises. And
    on an input that is not contiguous, here of shape [[2, 4, 3]] with the
    strides [[12, 1, 4]] that transposing the last two dimensions of a
    fresh tensor leaves, [view] finds no strides and raises, although the
    batch has two rows. *)
Lemma Flatten_forward_empty_batch :
  ~ (forall (x : Tensor) (B : Z) (ds : list Z) (self : Flatten) (w : unit),
       Tensor_wf x ->
       is_contiguous x = true ->
       shape x = B :: ds ->
       exists out s, Flatten_forward x (self, w) = (Ok out, s) /\ shape out = [B; prod_ ds])
  /\ ~ (forall (x : Tensor) (B : Z) (ds : list Z) (self : Flatten) (w : unit),
          Tensor_wf x ->
          0 < B ->
          shape x = B :: ds ->
          exists out s, Flatten_forward x (self, w) = (Ok out, s) /\ shape out = [B; prod_ ds]).
Proof.
  split.
  - intros claim.
    destruct (claim (mkTensor [0; 3] float32 cpu (Leaf 0)) 0 [3] mkFlatten tt)
      as (out & s & Hrun & _).
    + split; [reflexivity|]. repeat constructor; cbn; lia.
    + reflexivity.
    + reflexivity.
    + vm_compute in Hrun. discriminate Hrun.
  - intros claim.
    destruct (claim (mkStrided [2; 4; 3] [12; 1; 4] float32 cpu (Op "transpose" [1; 2] [Leaf 0]))
                2 [4; 3] mkFlatten tt)
      as (out & s & Hrun & _).
    + split; [reflexivity|]. repeat constructor; cbn; lia.
    + lia.
    + reflexivity.
    + vm_compute in Hrun. discriminate Hrun.
Qed.

(** ** SkipConnection *)

Lemma py_index_lt n i k : py_index n i = Some k -> (k < n)%nat.
Proof.
  unfold py_index. intros H.
  repeat case_bool_decide; simplify_eq; lia.
Qed.

Lemma size_Ok (t : Tensor) d n :
  size t d = Ok n <->
  exists k, py_index (length (shape t)) d = Some k /\ shape t !! k = Some n.
Proof.
  unfold size. split.
  - destruct (py_index _ d) as [k|] eqn:Hk; cbn; [|discriminate].
    destruct (shape t !! k) as [m|] eqn:Hm; cbn; [|discriminate].
    intros [= <-]. eauto.
  - intros (k & -> & Hn). cbn. by rewrite Hn.
Qed.

Lemma cat_skips_shape (t : Tensor) : cat_skips t = true -> shape t = [0].
Proof. unfold cat_skips. by intros ?%bool_decide_eq_true. Qed.

Lemma size_insert_axis (t : Tensor) (s : list Z) d k v :
  shape t = <[k:=v]> s -> py_index (length s) d = Some k -> size t d = Ok v.
Proof.
  intros Ht Hk. unfold size. rewrite Ht, length_insert, Hk. cbn.
  by rewrite list_lookup_insert_eq by eauto using py_index_lt.
Qed.

Lemma axis_overflows_head (t : Tensor) (ts : list Tensor) (d : Z) (k : nat) :
  py_index (length (shape t)) d = Some k -> axis_overflows (t :: ts) d = false.
Proof.
  intros Hk. unfold axis_overflows. cbn [forallb]. rewrite Hk.
  rewrite (bool_decide_eq_false_2 (Some k = None)) by done.
  by rewrite andb_false_r.
Qed.

Lemma axis_overflows_range (ts : list Tensor) (d : Z) :
  - 2 ^ 63 <= d < 2 ^ 63 -> axis_overflows ts d = false.
Proof. intros Hd. unfold axis_overflows. by rewrite (bool_decide_eq_true_2 _ Hd). Qed.

Lemma cat_pair_shape (x y out : Tensor) (d : Z) :
  cat [x; y] d = Ok out ->
  forall k, py_index (length (shape x)) d = Some k ->
    (forall sy, size y d = Ok sy ->
       size out d = Ok (default 0 (shape x !! k) + sy))
    /\ (forall i, i ≠ k -> (i < length (shape x))%nat -> shape out !! i = shape x !! i).
Proof.
  unfold cat.
  destruct (axis_overflows _ _); [discriminate|].
  destruct (existsb _ _); [discriminate|].
  destruct (negb (forallb (fun t => bool_decide (dtype t = dtype x)) _)); [discriminate|].
  destruct (negb (forallb (fun t => bool_decide (device t = device x)) _)); [discriminate|].
  rewrite !filter_cons, filter_nil.
  destruct (cat_skips x) eqn:Hx, (cat_skips y) eqn:Hy;
    repeat (case_decide; try done).
  - (* both are left out *)
    apply cat_skips_shape in Hx, Hy.
    intros [= <-] k Hk. rewrite Hx in *. split.
    + intros sy (k' & _ & Hsy)%size_Ok. rewrite Hy in Hsy.
      unfold size. cbn [shape length]. cbn [length] in Hk. rewrite Hk.
      pose proof (py_index_lt _ _ _ Hk).
      destruct k as [|k]; [|cbn in *; lia].
      destruct k' as [|k']; [|done]. cbn in Hsy. by simplify_eq.
    + intros i Hi Hlt. pose proof (py_index_lt _ _ _ Hk). cbn in *. lia.
  - (* the input is left out *)
    apply cat_skips_shape in Hx.
    destruct (py_index (length (shape y)) d) as [k'|] eqn:Hk'; [|discriminate].
    cbn [forallb]. intros [= <-] k Hk. rewrite Hx in *.
    pose proof (py_index_lt _ _ _ Hk) as Hlt.
    destruct k as [|k]; [|cbn in Hlt; lia]. split.
    + intros sy (k'' & Hk'' & Hsy)%size_Ok. simplify_eq.
      erewrite (size_insert_axis _ (shape y) d k'); [|reflexivity|done].
      f_equal. simpl. rewrite Hsy. simpl. lia.
    + intros i Hi Hi'. cbn in Hi'. lia.
  - (* the output of the submodule is left out *)
    apply cat_skips_shape in Hy.
    destruct (py_index (length (shape x)) d) as [k'|] eqn:Hk'; [|discriminate].
    cbn [forallb]. intros [= <-] k [= ->]. split.
    + intros sy (k'' & _ & Hsy)%size_Ok. rewrite Hy in Hsy.
      assert (sy = 0) as -> by (destruct k''; cbn in Hsy; by simplify_eq).
      erewrite (size_insert_axis _ (shape x) d k); [|reflexivity|done].
      done.
    + intros i Hi _. cbn. by rewrite list_lookup_insert_ne.
  - (* neither is left out *)
    destruct (py_index (length (shape x)) d) as [k'|] eqn:Hk'; [|discriminate].
    cbn [forallb]. rewrite andb_true_r.
    destruct (cat_compatible k' (shape x) (shape y)) eqn:Hc; [|discriminate].
    apply bool_decide_eq_true in Hc.
    assert (length (shape y) = length (shape x)) as Hlen.
    { apply (f_equal length) in Hc. by rewrite !length_insert in Hc. }
    intros [= <-] k [= ->]. split.
    + intros sy (k'' & Hk'' & Hsy)%size_Ok.
      rewrite Hlen, Hk' in Hk''. simplify_eq.
      erewrite (size_insert_axis _ (shape x) d k''); [|reflexivity|done].
      f_equal. simpl. rewrite Hsy. simpl. lia.
    + intros i Hi _. cbn. by rewrite list_lookup_insert_ne.
Qed.

Lemma cat_pair_returns (x y : Tensor) (d : Z) (k : nat) :
  py_index (length (shape x)) d = Some k ->
  <[k:=0]> (shape x) = <[k:=0]> (shape y) ->
  dtype y = dtype x ->
  device y = device x ->
  exists out, cat [x; y] d = Ok out.
Proof.
  intros Hk Hc Hdt Hdev.
  assert (length (shape y) = length (shape x)) as Hlen.
  { apply (f_equal length) in Hc. by rewrite !length_insert in Hc. }
  pose proof (py_index_lt _ _ _ Hk) as Hlt.
  unfold cat. rewrite (axis_overflows_head x [y] d k Hk). cbn [existsb forallb].
  rewrite !(bool_decide_eq_false_2 (shape _ = [])), Hdt, Hdev
    by (intros E; rewrite E in *; cbn in *; lia).
  rewrite !bool_decide_eq_true_2 by done. cbn [orb andb negb].
  rewrite !filter_cons, filter_nil.
  repeat case_decide; rewrite ?Hlen, ?Hk; cbn [forallb]; eauto.
  unfold cat_compatible. rewrite bool_decide_eq_true_2 by done. eauto.
Qed.

(** C6. Every output of [SkipConnection.forward] on [x] is the
    concatenation of [x] and of the submodule's output [y] on the
    configured axis: where that axis is an axis of [x], the output's size
    on it is the size of [x] plus the size of [y] on it, and on every other
    axis of [x] the output has the size of [x]; the layer itself is left as
    it was and the world is as the submodule left it. Such an output
    exists whenever the submodule returns a tensor of the dtype and on the
    device of [x] whose shape agrees with the shape of [x] off the axis. *)
Theorem SkipConnection_forward_shape {W} (self : SkipConnection W) (x : Tensor) (w : W) :
  (forall out s',
     SkipConnection_forward x (self, w) = (Ok out, s') ->
     exists y d,
       submodule self x w = (Ok y, s'.2) /\ s'.1 = self /\ cat_dim self = VInt d
       /\ forall k, py_index (length (shape x)) d = Some k ->
            (forall sy, size y d = Ok sy ->
               size out d = Ok (default 0 (shape x !! k) + sy))
            /\ (forall i, i ≠ k -> (i < length (shape x))%nat ->
                  shape out !! i = shape x !! i))
  /\ (forall y w' d k,
        submodule self x w = (Ok y, w') ->
        cat_dim self = VInt d ->
        py_index (length (shape x)) d = Some k ->
        <[k:=0]> (shape x) = <[k:=0]> (shape y) ->
        dtype y = dtype x ->
        device y = device x ->
        exists out, SkipConnection_forward x (self, w) = (Ok out, (self, w'))).
Proof.
  unfold SkipConnection_forward. split.
  - intros out s'.
    run. destruct (submodule self x w) as [[y|e] w'] eqn:Hsub; cbn [fst snd]; [|discriminate].
    run. destruct (cat_dim self) as [| | d | | | | |] eqn:Hd; try discriminate.
    run. intros [Hcat <-]%pair_equal_spec.
    exists y, d. split_and!; [done..|].
    by apply (cat_pair_shape x y out d).
  - intros y w' d k Hsub Hd Hk Hc Hdt Hdev.
    destruct (cat_pair_returns x y d k Hk Hc Hdt Hdev) as [out Hout].
    exists out.
    run. rewrite Hsub. run. by rewrite Hd, run_lift, Hout.
Qed.

Example SkipConnection_forward_channels :
  let double : Tensor -> M unit Tensor := fun t =>
    mret (mkTensor [2; 5; 8; 8] (dtype t) (device t) (Op "net" [] [data t])) in
  exists out,
    SkipConnection_forward (mkTensor [2; 3; 8; 8] float32 cpu (Leaf 0))
      (mkSkipConnection double (VInt 1), tt) = (Ok out, (mkSkipConnection double (VInt 1), tt))
    /\ shape out = [2; 8; 8; 8].
Proof. eexists. split; reflexivity. Qed.

(** ** GaussianFilter *)

Lemma to_dtype_device (t other : Tensor) :
  dtype (to t other) = dtype other /\ device (to t other) = device other
  /\ shape (to t other) = shape t.
Proof.
  unfold to.
  destruct (bool_decide (dtype t = dtype other)) eqn:Hdt;
    destruct (bool_decide (device t = device other)) eqn:Hdev; cbn; try done.
  apply bool_decide_eq_true in Hdt, Hdev. done.
Qed.

Lemma contiguous_meta (t : Tensor) :
  shape (contiguous t) = shape t /\ dtype (contiguous t) = dtype t
  /\ device (contiguous t) = device t.
Proof. unfold contiguous. by destruct (is_contiguous t). Qed.

Lemma to_idemp (t other : Tensor) : to (to t other) other = to t other.
Proof.
  destruct (to_dtype_device t other) as (Hdt & Hdev & _).
  unfold to at 1. by rewrite !bool_decide_eq_true_2.
Qed.

Lemma conv_dtype_device n input weight padding groups out :
  conv n input weight padding groups = Ok out ->
  dtype out = dtype input /\ device out = device input.
Proof.
  unfold conv. intros H.
  repeat match type of H with
         | match ?l with _ => _ end = _ => destruct l; try discriminate H
         | (if ?b then _ else _) = _ => destruct b; try discriminate H
         end.
  by injection H as <-.
Qed.

Lemma result_bind_Ok {A B} (r : result A) (f : A -> result B) (b : B) :
  r ≫= f = Ok b -> exists a, r = Ok a /\ f a = Ok b.
Proof. destruct r as [a|e]; [eauto|discriminate]. Qed.

Lemma getitem_first {A} (l : list A) (a : A) :
  getitem l 0 = Ok a <-> l !! 0%nat = Some a.
Proof.
  unfold getitem, py_index. destruct l as [|b l]; [done|].
  rewrite bool_decide_eq_true_2 by (cbn [length]; lia). cbn.
  split; by intros [= ->].
Qed.

Lemma getitem_nat {A} (l : list A) (i : nat) (a : A) :
  l !! i = Some a -> getitem l (Z.of_nat i) = Ok a.
Proof.
  intros Hl. pose proof (lookup_lt_Some _ _ _ Hl) as Hlt.
  unfold getitem, py_index. rewrite bool_decide_eq_true_2 by lia.
  cbn. by rewrite Nat2Z.id, Hl.
Qed.

Lemma GaussianFilter_conv_dtype_device self chns input_ d1 out :
  GaussianFilter_conv self chns input_ d1 = Ok out ->
  dtype out = dtype input_ /\ device out = device input_.
Proof.
  revert out. induction d1 as [|d1 IH]; intros out.
  - by intros [= <-].
  - cbn [GaussianFilter_conv].
    intros (s & _ & H)%result_bind_Ok.
    apply result_bind_Ok in H as (k & _ & H).
    apply result_bind_Ok in H as (k1 & _ & H).
    apply result_bind_Ok in H as (k2 & _ & H).
    apply result_bind_Ok in H as (p & _ & H).
    apply result_bind_Ok in H as (pad & _ & H).
    apply result_bind_Ok in H as (inner & Hinner & H).
    apply conv_dtype_device in H as [-> ->]. by apply IH.
Qed.

Lemma GaussianFilter_forward_state {W} (self : GaussianFilter) (x : Tensor) (w : W) :
  (GaussianFilter_forward x (self, w)).2 = (self, w).
Proof.
  unfold GaussianFilter_forward.
  run. destruct (getitem (shape x) 1) as [chns|e]; [|done].
  run. destruct (getitem (kernel self) 0) as [k0|e]; [|done].
  by run.
Qed.

(** C7, as the code has it. [GaussianFilter.forward] converts the input to
    the dtype and device of the filter's first kernel, not the kernels to
    the input: the filter, its kernels included, is after the call what it
    was before; an output has the dtype and the device of the first kernel;
    and the call on [x] is the call on [x] converted to that kernel. *)
Theorem GaussianFilter_forward_adapts_input {W} (self : GaussianFilter) (x : Tensor) (w : W) :
  (GaussianFilter_forward x (self, w)).2 = (self, w)
  /\ (forall out, (GaussianFilter_forward x (self, w)).1 = Ok out ->
        exists k0, kernel self !! 0%nat = Some k0
                   /\ dtype out = dtype k0 /\ device out = device k0)
  /\ (forall k0, kernel self !! 0%nat = Some k0 ->
        GaussianFilter_forward x (self, w) = GaussianFilter_forward (to x k0) (self, w)).
Proof.
  split_and!; [apply GaussianFilter_forward_state|..];
    unfold GaussianFilter_forward.
  - intros out.
    run. destruct (getitem (shape x) 1) as [chns|e]; [|done].
    run. destruct (getitem (kernel self) 0) as [k0|e] eqn:Hk0; [|done].
    run. intros Hout.
    apply GaussianFilter_conv_dtype_device in Hout as [-> ->].
    exists k0. unfold as_tensor.
    destruct (contiguous_meta (to x k0)) as (_ & -> & ->).
    destruct (to_dtype_device x k0) as (-> & -> & _). split_and!; [|done..].
    by apply getitem_first.
  - intros k0 Hk0.
    run. destruct (to_dtype_device x k0) as (_ & _ & ->).
    destruct (getitem (shape x) 1) as [chns|e]; [|done].
    run.
    assert (getitem (kernel self) 0 = Ok k0) as -> by by apply getitem_first.
    unfold contiguous, as_tensor. by rewrite to_idemp.
Qed.

Example GaussianFilter_forward_volume :
  let k := mkTensor [5] float32 cpu (Leaf 1) in
  let self := mkGaussianFilter 3 [k; k; k] [2; 2; 2] 3 in
  exists out,
    GaussianFilter_forward (mkTensor [1; 4; 16; 16; 8] float32 cpu (Leaf 0)) (self, tt)
    = (Ok out, (self, tt))
    /\ shape out = [1; 4; 16; 16; 8].
Proof. eexists. split; reflexivity. Qed.

(** C7 as claimed fails: a float32 filter on the CPU run on a float64 input
    on a GPU returns an output, and its kernel is still float32 on the CPU. *)
Lemma GaussianFilter_kernels_not_adapted :
  ~ (forall (self : GaussianFilter) (x out : Tensor) (s' : GaussianFilter * unit),
       GaussianFilter_forward x (self, tt) = (Ok out, s') ->
       Forall (fun k => dtype k = dtype x /\ device k = device x) (kernel s'.1)).
Proof.
  intros claim.
  pose (k := mkTensor [3] float32 cpu (Leaf 1)).
  pose (x := mkTensor [1; 2; 5] float64 (cuda 0) (Leaf 0)).
  pose (out := mkTensor [1; 2; 5] float32 cpu
                 (Op "conv" [2; 1]
                    [Op "to" [] [Leaf 0];
                     Op "repeat" [2; 1; 1] [Op "reshape" [1; 1; 3] [Leaf 1]]])).
  specialize (claim (mkGaussianFilter 1 [k] [1] 1) x out (mkGaussianFilter 1 [k] [1] 1, tt)).
  assert (GaussianFilter_forward x (mkGaussianFilter 1 [k] [1] 1, tt)
          = (Ok out, (mkGaussianFilter 1 [k] [1] 1, tt))) as Hrun by (vm_compute; reflexivity).
  apply claim in Hrun. cbn in Hrun.
  apply Forall_cons_1 in Hrun as [[Hdt _] _]. discriminate Hdt.
Qed.

(** ** Sliding-window inference *)










Lemma run_mapM_cons {S A B} (f : A -> M S B) (a : A) (l : list A) (s : S) :
  mapM f (a :: l) s
  = match f a s with
    | (Ok b, s') =>
        match mapM f l s' with
        | (Ok bs, s'') => (Ok (b :: bs), s'')
        | (Raise e, s'') => (Raise e, s'')
        end
    | (Raise e, s') => (Raise e, s')
    end.
Proof.
  change (mapM f (a :: l)) with (f a ≫= fun b => mapM f l ≫= fun bs => mret (b :: bs)).
  rewrite run_bind. destruct (f a s) as [[b|e] s']; [|done].
  rewrite run_bind. by destruct (mapM f l s') as [[bs|e] s''].
Qed.









(** ** What a call leaves behind *)

Lemma bind_leaves_state {S A B} (m : M S A) (f : A -> M S B) (s : S) :
  (m s).2 = s -> (forall a, (f a s).2 = s) -> ((m ≫= f) s).2 = s.
Proof.
  intros Hm Hf. rewrite run_bind.
  destruct (m s) as [[a|e] s']; cbn in Hm; subst s'; [apply Hf|done].
Qed.

Lemma mapM_leaves_state {S A B} (f : A -> M S B) (l : list A) (s : S) :
  (forall a, (f a s).2 = s) -> (mapM f l s).2 = s.
Proof.
  intros Hf. induction l as [|a l IH]; [done|].
  rewrite run_mapM_cons. specialize (Hf a).
  destruct (f a s) as [[b|e] s']; cbn in Hf; subst s'; [|done].
  by destruct (mapM f l s) as [[bs|e] s'].
Qed.

Lemma sliding_window_inference_leaves_state {W} inputs roi sw (network : Network W) ov bm w :
  stateless network ->
  (sliding_window_inference inputs roi sw network ov bm w).2 = w.
Proof.
  intros Hnet. unfold sliding_window_inference.
  destruct (shape inputs) as [|batch [|chns spatial]]; try done.
  apply bind_leaves_state; [done|]. intros cfg.
  apply bind_leaves_state; [|done].
  apply mapM_leaves_state. intros ats.
  apply bind_leaves_state; [done|]. intros slices. apply Hnet.
Qed.

(** C9, as the code has it. No call changes the object it is made on: the
    configuration of an inferer, the submodule and axis of a skip
    connection, the kernels and paddings of a Gaussian filter are after
    the call what they were before. [Flatten] and [GaussianFilter] leave
    the world untouched as well, so [GaussianFilter] called again on the
    same input returns the same result. An inferer or a skip connection
    changes the world exactly as the model or submodule it runs does: when
    that callable owns no state, a second call on the same input returns
    what the first one returned. *)
Theorem calls_leave_components_unchanged {W} (x : Tensor) (network : Network W) (w : W) :
  (forall self : SlidingWindowInferer,
     (SlidingWindowInferer__call__ x network (self, w)).2.1 = self)
  /\ (forall self : RegularInferer,
        (RegularInferer__call__ x network (self, w)).2.1 = self)
  /\ (forall self : SkipConnection W,
        (SkipConnection_forward x (self, w)).2.1 = self)
  /\ (forall self : Flatten,
        (Flatten_forward x (self, w)).2 = (self, w))
  /\ (forall self : GaussianFilter,
        (GaussianFilter_forward x (self, w)).2 = (self, w)
        /\ GaussianFilter_forward x (GaussianFilter_forward x (self, w)).2
           = GaussianFilter_forward x (self, w))
  /\ (stateless network ->
      (forall self : SlidingWindowInferer,
         SlidingWindowInferer__call__ x network
           (SlidingWindowInferer__call__ x network (self, w)).2
         = SlidingWindowInferer__call__ x network (self, w))
      /\ (forall self : RegularInferer,
            RegularInferer__call__ x network (RegularInferer__call__ x network (self, w)).2
            = RegularInferer__call__ x network (self, w)))
  /\ (forall self : SkipConnection W,
        stateless (submodule self) ->
        SkipConnection_forward x (SkipConnection_forward x (self, w)).2
        = SkipConnection_forward x (self, w)).
Proof.
  assert (forall self : SkipConnection W,
            (SkipConnection_forward x (self, w)).2.1 = self
            /\ (stateless (submodule self) -> (SkipConnection_forward x (self, w)).2 = (self, w)))
    as Hskip.
  { intros self. unfold SkipConnection_forward.
    run. pose proof (fun H : stateless (submodule self) => H x w) as Hw.
    destruct (submodule self x w) as [[y|e] w']; cbn [fst snd] in *;
      [|split; [done|by intros ->%Hw]].
    run. destruct (cat_dim self); (split; [done|by intros ->%Hw]). }
  assert (forall self : GaussianFilter, (GaussianFilter_forward x (self, w)).2 = (self, w))
    as Hgauss.
  { intros self. apply (GaussianFilter_forward_state self x w). }
  split_and!.
  - intros self. unfold SlidingWindowInferer__call__.
    by run.
  - intros self. unfold RegularInferer__call__. by rewrite run_world.
  - intros self. apply Hskip.
  - intros self. unfold Flatten_forward.
    run. destruct (size x 0); [|done]. by run.
  - intros self. split; [apply Hgauss|by rewrite Hgauss].
  - intros Hnet. split; intros self.
    + assert ((SlidingWindowInferer__call__ x network (self, w)).2 = (self, w)) as ->; [|done].
      unfold SlidingWindowInferer__call__.
      run. by rewrite sliding_window_inference_leaves_state.
    + assert ((RegularInferer__call__ x network (self, w)).2 = (self, w)) as ->; [|done].
      unfold RegularInferer__call__. run. by rewrite Hnet.
  - intros self Hsub. by rewrite (proj2 (Hskip self) Hsub).
Qed.

(** C9 as claimed fails for a skip connection around a submodule with
    state: called twice on the same input, it returns two different
    tensors, the submodule having counted the first call. *)
Lemma SkipConnection_repeated_call_differs :
  ~ (forall (self : SkipConnection nat) (x : Tensor) (w : nat),
       (SkipConnection_forward x (SkipConnection_forward x (self, w)).2).1
       = (SkipConnection_forward x (self, w)).1).
Proof.
  intros claim.
  specialize (claim (mkSkipConnection counting_net (VInt 1))
                (mkTensor [1; 3; 8; 8] float32 cpu (Leaf 0)) 0%nat).
  vm_compute in claim. discriminate claim.
Qed.

Example RegularInferer_repeated_call_differs :
  let x := mkTensor [1; 3; 8; 8] float32 cpu (Leaf 0) in
  let first := RegularInferer__call__ x counting_net (mkRegularInferer, 0%nat) in
  (RegularInferer__call__ x counting_net first.2).1 ≠ first.1.
Proof. vm_compute. discriminate. Qed.

(** * Further properties of the layers and of the constructor *)

(** ** Flatten: when it returns, and what it keeps *)

(** What [x.view(b, -1)] asks of [b] on [n] elements. *)
Lemma infer_size_batch_rest_Ok (b n : Z) (sizes : list Z) :
  infer_size [b; -1] n = Ok sizes ->
  0 < b /\ n `mod` b = 0 /\ sizes = [b; n `div` b].
Proof.
  unfold infer_size. cbn [scan_shape].
  destruct (bool_decide (b = -1)) eqn:Hb1.
  { rewrite (bool_decide_eq_true_2 (-1 = -1)) by done. discriminate. }
  apply bool_decide_eq_false in Hb1.
  destruct (bool_decide (0 <= b)) eqn:Hb0; [|discriminate].
  apply bool_decide_eq_true in Hb0.
  rewrite !(bool_decide_eq_true_2 (-1 = -1)) by done.
  cbn [mbind result_bind andb]. replace (1 * b) with b by lia.
  destruct (bool_decide (n = b) || _) eqn:Hc; [|discriminate].
  destruct (bool_decide (b = 0)) eqn:Hz; [discriminate|].
  apply bool_decide_eq_false in Hz.
  cbn [fmap list_fmap].
  rewrite (bool_decide_eq_false_2 (b = -1)), (bool_decide_eq_true_2 (-1 = -1)) by done.
  intros [= <-]. split_and!; [lia| |done].
  apply orb_prop in Hc as [Hc|Hc].
  - apply bool_decide_eq_true in Hc as ->. apply Z_mod_same_full.
  - apply andb_prop in Hc as [_ Hc]. by apply bool_decide_eq_true in Hc.
Qed.

Lemma Flatten_forward_Ok {W} (x out : Tensor) (s s' : Flatten * W) :
  Flatten_forward x s = (Ok out, s') ->
  exists B ds, shape x = B :: ds /\ 0 < B /\ numel x `mod` B = 0
               /\ shape out = [B; numel x `div` B] /\ s' = s
               /\ view_strides (shape x) (strides x) [B; numel x `div` B]
                  = Some (strides out)
               /\ dtype out = dtype x /\ device out = device x.
Proof.
  destruct s as [self w]. unfold Flatten_forward. run.
  destruct (size x 0) as [b|e] eqn:Hsize; [|discriminate]. run.
  apply size_Ok in Hsize as (k & Hk & Hb).
  assert (k = 0%nat) as ->.
  { unfold py_index in Hk. repeat case_bool_decide; simplify_eq; lia. }
  destruct (shape x) as [|B ds] eqn:Hs; [done|]. cbn in Hb. simplify_eq.
  unfold view.
  destruct (infer_size [b; -1] (numel x)) as [sizes|e] eqn:Hinfer; [|discriminate].
  apply infer_size_batch_rest_Ok in Hinfer as (HB & Hmod & ->).
  cbn [mbind result_bind mret result_ret]. rewrite Hs.
  destruct (view_strides (b :: ds) (strides x) _) as [st|] eqn:Hst; [|discriminate].
  intros [= <- <-]. exists b, ds. by split_and!.
Qed.

(** X1. On a contiguous tensor [Flatten.forward] returns an output
    exactly when the tensor has a first dimension and that dimension has
    at least one element. *)
Theorem Flatten_forward_returns_iff {W} (x : Tensor) (self : Flatten) (w : W) :
  Tensor_wf x ->
  is_contiguous x = true ->
  (exists out, (Flatten_forward x (self, w)).1 = Ok out)
  <-> (exists B ds, shape x = B :: ds /\ 1 <= B).
Proof.
  intros Hwf Hc. split.
  - intros [out Hout].
    destruct (Flatten_forward x (self, w)) as [r s'] eqn:Hrun. cbn in Hout. subst r.
    apply Flatten_forward_Ok in Hrun as (B & ds & Hs & HB & _).
    exists B, ds. split; [done|lia].
  - intros (B & ds & Hs & HB).
    rewrite (Flatten_forward_view x B ds self w Hs) by lia.
    destruct (view_strides_contiguous x [B; prod_ ds] Hwf Hc) as [st ->]; [| |by eexists].
    + destruct Hwf as [_ Hpos]. rewrite Hs in Hpos. apply Forall_cons in Hpos as [_ Hpos].
      repeat constructor; [lia|by apply prod__nonneg].
    + unfold numel. rewrite Hs. change (prod_ (B :: ds)) with (B * prod_ ds).
      cbn [prod_ foldr]. fold (prod_ ds). lia.
Qed.

Lemma Flatten_forward_returns_iff_witness :
  (exists out,
     (Flatten_forward (mkTensor [4; 1; 6] float32 cpu (Leaf 0)) (mkFlatten, tt)).1 = Ok out)
  <-> (exists B ds, [4; 1; 6] = B :: ds /\ 1 <= B).
Proof.
  apply (Flatten_forward_returns_iff (mkTensor [4; 1; 6] float32 cpu (Leaf 0)) mkFlatten tt).
  - split; [reflexivity|]. repeat constructor; lia.
  - reflexivity.
Defined.

(** X2. [Flatten.forward] fails in two ways, and changes nothing when it
    does: on a tensor without dimensions [x.size(0)] is an [IndexError],
    and on an empty batch the size behind [-1] is ambiguous and [view]
    raises a [RuntimeError]. *)
Theorem Flatten_forward_errors {W} (x : Tensor) (self : Flatten) (w : W) :
  (shape x = [] ->
   exists msg, Flatten_forward x (self, w) = (Raise (IndexError msg), (self, w)))
  /\ (forall ds, shape x = 0 :: ds ->
        exists msg, Flatten_forward x (self, w) = (Raise (RuntimeError msg), (self, w))).
Proof.
  split.
  - intros Hs. unfold Flatten_forward. run. unfold size. rewrite Hs. by eexists.
  - intros ds Hs. unfold Flatten_forward. run.
    rewrite (size_first x 0 ds Hs). run.
    unfold view, numel. rewrite Hs.
    change (prod_ (0 :: ds)) with (0 * prod_ ds). rewrite Z.mul_0_l.
    eexists. reflexivity.
Qed.

(** X3. An output of [Flatten.forward] holds as many elements as the
    input: the two sizes of the output multiply to the product of the
    sizes of the input. *)
Theorem Flatten_forward_numel {W} (x out : Tensor) (s s' : Flatten * W) :
  Flatten_forward x s = (Ok out, s') ->
  numel out = numel x.
Proof.
  intros (B & ds & _ & HB & Hmod & Hout & _)%Flatten_forward_Ok.
  unfold numel at 1. rewrite Hout. cbn [prod_ foldr].
  rewrite Z.mul_1_r. symmetry. apply Z_div_exact_full_2; [lia|done].
Qed.

Lemma Flatten_forward_numel_witness :
  numel (mkTensor [2; 60] float32 cpu (Op "view" [2; 60] [Leaf 0]))
  = numel (mkTensor [2; 3; 4; 5] float32 cpu (Leaf 0)).
Proof.
  apply (Flatten_forward_numel (mkTensor [2; 3; 4; 5] float32 cpu (Leaf 0))
           (mkTensor [2; 60] float32 cpu (Op "view" [2; 60] [Leaf 0]))
           (mkFlatten, tt) (mkFlatten, tt)).
  reflexivity.
Defined.

(** X4. Flattening twice is flattening once, as far as the shape goes:
    on an output of [Flatten.forward] the layer returns again, with the
    same shape, dtype and device. *)
Theorem Flatten_forward_twice {W} (x out : Tensor) (s s' : Flatten * W) :
  Flatten_forward x s = (Ok out, s') ->
  exists out', Flatten_forward out s' = (Ok out', s')
               /\ shape out' = shape out
               /\ dtype out' = dtype out /\ device out' = device out.
Proof.
  intros (B & ds & Hs & HB & Hmod & Hout & -> & Hst & _)%Flatten_forward_Ok.
  destruct s as [self w].
  rewrite (Flatten_forward_view out B [numel x `div` B] self w Hout HB).
  cbn [prod_ foldr]. rewrite Z.mul_1_r, Hout.
  destruct (view_strides_again (shape x) (strides x) (strides out) B (numel x `div` B))
    as [st ->]; [by rewrite Hs| |done|done|].
  { unfold numel. apply Z_div_exact_full_2; [lia|done]. }
  eexists. split; [reflexivity|]. done.
Qed.

Lemma Flatten_forward_twice_witness :
  exists out',
    Flatten_forward (mkTensor [2; 60] float32 cpu (Op "view" [2; 60] [Leaf 0])) (mkFlatten, tt)
    = (Ok out', (mkFlatten, tt))
    /\ shape out' = [2; 60]
    /\ dtype out' = float32 /\ device out' = cpu.
Proof.
  apply (Flatten_forward_twice (mkTensor [2; 3; 4; 5] float32 cpu (Leaf 0))
           (mkTensor [2; 60] float32 cpu (Op "view" [2; 60] [Leaf 0]))
           (mkFlatten, tt) (mkFlatten, tt)).
  reflexivity.
Defined.

(** ** SkipConnection: errors, channels, negative axes *)

Lemma SkipConnection_forward_run {W} (self : SkipConnection W) (x y : Tensor) (w w' : W) (d : Z) :
  submodule self x w = (Ok y, w') ->
  cat_dim self = VInt d ->
  SkipConnection_forward x (self, w) = (cat [x; y] d, (self, w')).
Proof.
  intros Hsub Hd. unfold SkipConnection_forward.
  run. rewrite Hsub. run. by rewrite Hd.
Qed.

(** X5. [SkipConnection.forward] handles no error. When the submodule
    raises, the forward pass raises the same exception and leaves the world
    as the submodule left it. When the configured axis is not an integer,
    the forward pass is a [TypeError], raised only after the submodule has
    run: what the submodule did to its state stays done. *)
Theorem SkipConnection_forward_errors {W} (self : SkipConnection W) (x : Tensor) (w : W) :
  (forall e w', submodule self x w = (Raise e, w') ->
     SkipConnection_forward x (self, w) = (Raise e, (self, w')))
  /\ (forall y w', submodule self x w = (Ok y, w') ->
        (forall d, cat_dim self ≠ VInt d) ->
        exists msg,
          SkipConnection_forward x (self, w) = (Raise (TypeError msg), (self, w'))).
Proof.
  split.
  - intros e w' Hsub. unfold SkipConnection_forward. run. by rewrite Hsub.
  - intros y w' Hsub Hd. unfold SkipConnection_forward.
    run. rewrite Hsub. run.
    destruct (cat_dim self) as [| | d | | | | |]; try by eexists. by destruct (Hd d).
Qed.

Example SkipConnection_forward_type_error_after_call :
  SkipConnection_forward (mkTensor [1; 3; 8; 8] float32 cpu (Leaf 0))
    (mkSkipConnection counting_net (VFloat 1), 0%nat)
  = (Raise (TypeError "cat(): argument 'dim' must be int"),
     (mkSkipConnection counting_net (VFloat 1), 1%nat)).
Proof. reflexivity. Qed.

(** X6. A skip connection built with the default axis concatenates on the
    channels: around a submodule that keeps the batch and spatial sizes,
    the dtype and the device of its input and emits [classes] channels, an
    input of shape [[B, C, spatial...]] comes out with shape
    [[B, C + classes, spatial...]], dtype and device unchanged. *)
Theorem SkipConnection_default_adds_channels {W} (net : Network W) (classes : Z)
    (x : Tensor) (B C : Z) (spatial : list Z) (w : W) :
  keeps_spatial_sizes net classes ->
  keeps_dtype_device net ->
  shape x = B :: C :: spatial ->
  exists self out w',
    SkipConnection_new net [] [] = Ok self
    /\ SkipConnection_forward x (self, w) = (Ok out, (self, w'))
    /\ shape out = B :: C + classes :: spatial
    /\ dtype out = dtype x /\ device out = device x.
Proof.
  intros Hnet Hkeep Hs.
  destruct (Hnet x w B C spatial Hs) as (y & w' & Hsub & Hy).
  destruct (Hkeep x y w w' Hsub) as [Hdt Hdev].
  exists (mkSkipConnection net (VInt 1)), (mkTensor (B :: C + classes :: spatial)
            (dtype x) (device x) (Op "cat" [1] [data x; data y])), w'.
  split; [reflexivity|]. split; [|done].
  rewrite (SkipConnection_forward_run (mkSkipConnection net (VInt 1)) x y w w' 1 Hsub eq_refl).
  f_equal. unfold cat. rewrite (axis_overflows_range _ 1) by lia. cbn [existsb forallb].
  rewrite Hs, Hy, Hdt, Hdev.
  rewrite !(bool_decide_eq_false_2 (_ :: _ = [])) by done.
  rewrite !bool_decide_eq_true_2 by done. cbn [orb andb negb].
  rewrite !filter_cons, filter_nil. unfold cat_skips. rewrite Hs, Hy.
  rewrite !(bool_decide_eq_false_2 (_ :: _ :: _ = [0])) by done.
  rewrite !decide_True by done. rewrite Hs.
  assert (py_index (length (B :: C :: spatial)) 1 = Some 1%nat) as ->.
  { unfold py_index. by rewrite bool_decide_eq_true_2 by (cbn [length]; lia). }
  cbn [forallb]. unfold cat_compatible. rewrite Hy.
  rewrite bool_decide_eq_true_2 by done. cbn.
  rewrite Hs, Hy. simpl. by rewrite Z.add_0_r.
Qed.

Lemma SkipConnection_default_adds_channels_witness :
  exists self out w',
    SkipConnection_new segmentation_net [] [] = Ok self
    /\ SkipConnection_forward (mkTensor [4; 3; 32; 32] float32 cpu (Leaf 0)) (self, tt)
       = (Ok out, (self, w'))
    /\ shape out = [4; 3 + 2; 32; 32]
    /\ dtype out = float32 /\ device out = cpu.
Proof.
  apply (SkipConnection_default_adds_channels segmentation_net 2
           (mkTensor [4; 3; 32; 32] float32 cpu (Leaf 0)) 4 3 [32; 32] tt).
  - intros t w n c sp Hs. unfold segmentation_net. rewrite Hs.
    eexists _, _. split; reflexivity.
  - intros t t' w w' [= <- _]. done.
  - reflexivity.
Defined.

Lemma cat_skips_false_long (t : Tensor) : (1 < length (shape t))%nat -> cat_skips t = false.
Proof.
  intros Hlen. unfold cat_skips. apply bool_decide_eq_false.
  intros E. rewrite E in Hlen. cbn in Hlen. lia.
Qed.

Lemma cat_pair_long (x y : Tensor) (d : Z) :
  (1 < length (shape x))%nat ->
  (1 < length (shape y))%nat ->
  dtype y = dtype x ->
  device y = device x ->
  cat [x; y] d
  = if axis_overflows [x; y] d then Raise (ValueError "Overflow when unpacking long")
    else match py_index (length (shape x)) d with
    | None => Raise (IndexError "Dimension out of range")
    | Some k =>
        if cat_compatible k (shape x) (shape y) then
          Ok (mkTensor (<[k:=default 0 (shape x !! k) + (default 0 (shape y !! k) + 0)]> (shape x))
                (dtype x) (device x) (Op "cat" [d] [data x; data y]))
        else Raise (RuntimeError "Sizes of tensors must match except in the concatenation dimension")
    end.
Proof.
  intros Hx Hy Hdt Hdev. unfold cat.
  destruct (axis_overflows [x; y] d); [done|]. cbn [existsb forallb].
  rewrite !(bool_decide_eq_false_2 (shape _ = [])), Hdt, Hdev
    by (intros E; rewrite E in *; cbn in *; lia).
  rewrite !bool_decide_eq_true_2 by done. cbn [orb andb negb].
  rewrite !filter_cons, filter_nil.
  rewrite !decide_True by by apply cat_skips_false_long.
  destruct (py_index _ d) as [k|]; [|done].
  cbn [forallb]. rewrite andb_true_r. done.
Qed.



(** X17. When the configured axis is a 64-bit integer and not an axis of
    the input, the forward pass raises the [IndexError] of [torch.cat],
    after the submodule has run. *)
Theorem SkipConnection_forward_rejects_axis {W} (self : SkipConnection W)
    (x y : Tensor) (w w' : W) (d : Z) :
  submodule self x w = (Ok y, w') ->
  cat_dim self = VInt d ->
  (1 < length (shape x))%nat ->
  (1 < length (shape y))%nat ->
  dtype y = dtype x ->
  device y = device x ->
  py_index (length (shape x)) d = None ->
  - 2 ^ 63 <= d < 2 ^ 63 ->
  exists msg, SkipConnection_forward x (self, w) = (Raise (IndexError msg), (self, w')).
Proof.
  intros Hsub Hd Hx Hy Hdt Hdev Hk Hrange.
  rewrite (SkipConnection_forward_run self x y w w' d Hsub Hd).
  rewrite (cat_pair_long x y d Hx Hy Hdt Hdev).
  rewrite (axis_overflows_range [x; y] d Hrange), Hk.
  by eexists.
Qed.

Lemma SkipConnection_forward_rejects_axis_witness :
  exists msg,
    SkipConnection_forward (mkTensor [1; 3; 8; 8] float32 cpu (Leaf 0))
      (mkSkipConnection segmentation_net (VInt 4), tt)
    = (Raise (IndexError msg), (mkSkipConnection segmentation_net (VInt 4), tt)).
Proof.
  apply (SkipConnection_forward_rejects_axis
           (mkSkipConnection segmentation_net (VInt 4))
           (mkTensor [1; 3; 8; 8] float32 cpu (Leaf 0))
           (mkTensor [1; 2; 8; 8] float32 cpu (Op "segmentation_net" [] [Leaf 0]))
           tt tt 4).
  - reflexivity.
  - reflexivity.
  - cbn. lia.
  - cbn. lia.
  - reflexivity.
  - reflexivity.
  - reflexivity.
  - lia.
Defined.

(** X18. When the configured axis does not fit a 64-bit integer, and so
    is an axis neither of the input nor of the submodule's output, the
    forward pass raises a [ValueError], after the submodule has run. *)
Theorem SkipConnection_forward_axis_overflow {W} (self : SkipConnection W)
    (x y : Tensor) (w w' : W) (d : Z) :
  submodule self x w = (Ok y, w') ->
  cat_dim self = VInt d ->
  (1 < length (shape x))%nat ->
  (1 < length (shape y))%nat ->
  dtype y = dtype x ->
  device y = device x ->
  py_index (length (shape x)) d = None ->
  py_index (length (shape y)) d = None ->
  ~ (- 2 ^ 63 <= d < 2 ^ 63) ->
  exists msg, SkipConnection_forward x (self, w) = (Raise (ValueError msg), (self, w')).
Proof.
  intros Hsub Hd Hx Hy Hdt Hdev Hkx Hky Hrange.
  rewrite (SkipConnection_forward_run self x y w w' d Hsub Hd).
  rewrite (cat_pair_long x y d Hx Hy Hdt Hdev).
  unfold axis_overflows. cbn [forallb]. rewrite Hkx, Hky.
  rewrite (bool_decide_eq_false_2 _ Hrange), !bool_decide_eq_true_2 by done.
  by eexists.
Qed.

Lemma SkipConnection_forward_axis_overflow_witness :
  exists msg,
    SkipConnection_forward (mkTensor [1; 3; 8; 8] float32 cpu (Leaf 0))
      (mkSkipConnection segmentation_net (VInt (2 ^ 63)), tt)
    = (Raise (ValueError msg), (mkSkipConnection segmentation_net (VInt (2 ^ 63)), tt)).
Proof.
  apply (SkipConnection_forward_axis_overflow
           (mkSkipConnection segmentation_net (VInt (2 ^ 63)))
           (mkTensor [1; 3; 8; 8] float32 cpu (Leaf 0))
           (mkTensor [1; 2; 8; 8] float32 cpu (Op "segmentation_net" [] [Leaf 0]))
           tt tt (2 ^ 63)).
  - reflexivity.
  - reflexivity.
  - cbn. lia.
  - cbn. lia.
  - reflexivity.
  - reflexivity.
  - reflexivity.
  - reflexivity.
  - lia.
Defined.

Lemma py_index_from_end (n : nat) (d : Z) :
  - Z.of_nat n <= d < 0 -> py_index n (d + Z.of_nat n) = py_index n d.
Proof.
  intros Hd. unfold py_index.
  rewrite (bool_decide_eq_true_2 (0 <= d + Z.of_nat n < Z.of_nat n)) by lia.
  rewrite (bool_decide_eq_false_2 (0 <= d < Z.of_nat n)) by lia.
  rewrite (bool_decide_eq_true_2 (- Z.of_nat n <= d < 0)) by lia.
  f_equal. lia.
Qed.

(** X8. A negative axis counts from the last one. For an input of at
    least two dimensions, a skip connection configured with the axis [d],
    [-rank <= d < 0], does what the one configured with [d + rank] does:
    it leaves the same world, raises the same exception, or returns an
    output of the same shape, dtype and device. *)
Theorem SkipConnection_axis_from_end {W} (net : Network W) (x : Tensor) (w : W) (d : Z) :
  (1 < length (shape x))%nat ->
  - Z.of_nat (length (shape x)) <= d < 0 ->
  let rank := Z.of_nat (length (shape x)) in
  let negative := SkipConnection_forward x (mkSkipConnection net (VInt d), w) in
  let positive := SkipConnection_forward x (mkSkipConnection net (VInt (d + rank)), w) in
  negative.2.2 = positive.2.2
  /\ match negative.1, positive.1 with
     | Ok out, Ok out' =>
         shape out = shape out' /\ dtype out = dtype out' /\ device out = device out'
     | Raise e, Raise e' => e = e'
     | _, _ => False
     end.
Proof.
  intros Hx Hd rank negative positive. subst negative positive rank.
  destruct (net x w) as [[y|e] w'] eqn:Hnet.
  2: { unfold SkipConnection_forward. run. cbn [submodule]. by rewrite Hnet. }
  rewrite (SkipConnection_forward_run (mkSkipConnection net (VInt d)) x y w w' d Hnet eq_refl).
  rewrite (SkipConnection_forward_run (mkSkipConnection net (VInt _)) x y w w' _ Hnet eq_refl).
  cbn [fst snd]. split; [done|].
  assert (py_index (length (shape x)) d = Some (Z.to_nat (d + Z.of_nat (length (shape x)))))
    as Hk.
  { unfold py_index. rewrite (bool_decide_eq_false_2 (0 <= d < _)) by lia.
    rewrite bool_decide_eq_true_2 by lia. f_equal. lia. }
  unfold cat.
  rewrite (axis_overflows_head x [y] d _ Hk).
  rewrite <- py_index_from_end in Hk by done.
  rewrite (axis_overflows_head x [y] _ _ Hk).
  cbn [existsb forallb].
  destruct (bool_decide (shape x = []) || _); [done|].
  destruct (negb _); [done|]. destruct (negb _); [done|].
  rewrite !filter_cons, filter_nil.
  rewrite !(decide_True (P:=cat_skips x = false)) by by apply cat_skips_false_long.
  rewrite py_index_from_end by done.
  destruct (decide (cat_skips y = false));
    (destruct (py_index _ d) as [k|]; [|done]);
    cbn [forallb]; [|done].
  by destruct (cat_compatible k (shape x) (shape y)).
Qed.

Lemma SkipConnection_axis_from_end_witness :
  let x := mkTensor [1; 3; 8; 8] float32 cpu (Leaf 0) in
  let negative := SkipConnection_forward x (mkSkipConnection segmentation_net (VInt (-3)), tt) in
  let positive := SkipConnection_forward x (mkSkipConnection segmentation_net (VInt (-3 + Z.of_nat 4)), tt) in
  negative.2.2 = positive.2.2
  /\ match negative.1, positive.1 with
     | Ok out, Ok out' =>
         shape out = shape out' /\ dtype out = dtype out' /\ device out = device out'
     | Raise e, Raise e' => e = e'
     | _, _ => False
     end.
Proof.
  apply (SkipConnection_axis_from_end segmentation_net
           (mkTensor [1; 3; 8; 8] float32 cpu (Leaf 0)) tt (-3)).
  - cbn. lia.
  - cbn. lia.
Defined.

(** ** GaussianFilter: the shape of the output *)

Lemma scan_shape_ones (m : nat) (infer : bool) (acc : Z) :
  scan_shape (replicate m 1) infer acc = Ok (infer, acc).
Proof.
  revert acc. induction m as [|m IH]; intros acc; [done|].
  cbn [replicate scan_shape].
  rewrite (bool_decide_eq_false_2 (1 = -1)), (bool_decide_eq_true_2 (0 <= 1)) by lia.
  by rewrite IH, Z.mul_1_r.
Qed.

Lemma scan_shape_ones_infer (m j : nat) (acc : Z) :
  (j < m)%nat ->
  scan_shape (<[j:=-1]> (replicate m 1)) false acc = Ok (true, acc).
Proof.
  revert j acc. induction m as [|m IH]; intros j acc Hj; [lia|].
  destruct j as [|j]; cbn [replicate insert list_insert scan_shape].
  - rewrite (bool_decide_eq_true_2 (-1 = -1)) by done. apply scan_shape_ones.
  - rewrite (bool_decide_eq_false_2 (1 = -1)), (bool_decide_eq_true_2 (0 <= 1)) by lia.
    rewrite Z.mul_1_r. apply IH. lia.
Qed.

Lemma infer_size_ones (m j : nat) (K : Z) :
  (j < m)%nat ->
  infer_size (<[j:=-1]> (replicate m 1)) K = Ok (<[j:=K]> (replicate m 1)).
Proof.
  intros Hj. unfold infer_size. rewrite scan_shape_ones_infer by done.
  cbn [mbind result_bind andb].
  rewrite (bool_decide_eq_true_2 (0 < 1)) by lia.
  rewrite (bool_decide_eq_true_2 (K `mod` 1 = 0)) by apply Z.mod_1_r.
  rewrite orb_true_r, (bool_decide_eq_false_2 (1 = 0)) by lia.
  f_equal. rewrite Z.div_1_r, list_fmap_insert, fmap_replicate.
  rewrite (bool_decide_eq_true_2 (-1 = -1)), (bool_decide_eq_false_2 (1 = -1)) by lia.
  done.
Qed.

Lemma existsb_negative_replicate (n : nat) (v : Z) :
  0 <= v -> existsb (fun r => bool_decide (r < 0)) (replicate n v) = false.
Proof.
  intros Hv. induction n as [|n IH]; [done|].
  cbn [replicate existsb]. by rewrite bool_decide_eq_false_2, IH by lia.
Qed.

(** The weight of the convolution on axis [d]: the kernel of that axis,
    laid along the axis and repeated once per channel. *)
Lemma GaussianFilter_weight (n d : nat) (k : Tensor) (K C : Z) :
  (d < n)%nat ->
  shape k = [K] ->
  0 <= C ->
  exists s k1 k2,
    setitem (py_replicate 1 (Z.of_nat n + 2)) (Z.of_nat d + 2) (-1) = Ok s
    /\ reshape k s = Ok k1
    /\ repeat_ k1 ([C; 1] ++ py_replicate 1 (Z.of_nat n)) = Ok k2
    /\ shape k2 = C :: 1 :: <[d:=K]> (replicate n 1)
    /\ dtype k2 = dtype k /\ device k2 = device k.
Proof.
  intros Hd Hk HC.
  assert (py_replicate 1 (Z.of_nat n + 2) = replicate (S (S n)) 1) as ->.
  { unfold py_replicate. f_equal. lia. }
  assert (py_replicate 1 (Z.of_nat n) = replicate n 1) as ->.
  { unfold py_replicate. f_equal. lia. }
  exists (<[S (S d):=-1]> (replicate (S (S n)) 1)).
  eexists _, _. split_and!.
  - unfold setitem, py_index. rewrite length_replicate.
    rewrite bool_decide_eq_true_2 by lia. do 2 f_equal. lia.
  - unfold reshape, numel. rewrite Hk. cbn [prod_ foldr]. rewrite Z.mul_1_r.
    rewrite infer_size_ones by lia. reflexivity.
  - unfold repeat_. cbn [shape app length].
    rewrite length_insert, !length_replicate.
    rewrite bool_decide_eq_false_2 by lia.
    cbn [existsb]. rewrite !bool_decide_eq_false_2 by lia. cbn [orb].
    rewrite existsb_negative_replicate by lia.
    reflexivity.
  - cbn [shape]. rewrite Nat.sub_diag. cbn [replicate app insert list_insert zip_with].
    rewrite Z.mul_1_l, Z.mul_1_r. do 2 f_equal.
    clear. revert d. induction n as [|n IH]; intros d; [done|].
    destruct d; cbn [replicate insert list_insert zip_with]; rewrite ?Z.mul_1_r.
    + f_equal. clear. induction n; [done|]. cbn. by f_equal.
    + f_equal. apply IH.
  - done.
  - done.
Qed.

Lemma existsb_negative_insert (l : list Z) (d : nat) (v : Z) :
  0 <= v ->
  existsb (fun r => bool_decide (r < 0)) l = false ->
  existsb (fun r => bool_decide (r < 0)) (<[d:=v]> l) = false.
Proof.
  intros Hv. revert d. induction l as [|a l IH]; intros d; [done|].
  cbn [existsb]. intros [Ha Hl]%orb_false_elim.
  destruct d; cbn [insert list_insert existsb].
  - by rewrite bool_decide_eq_false_2, Hl by lia.
  - by rewrite Ha, IH.
Qed.

(** One axis convolved, the others left as they are. *)
Lemma conv_axis_sizes (cur : list Z) (d : nat) (s p K : Z) :
  cur !! d = Some s ->
  zip_with (fun ip k => ip - k + 1)
    (zip_with (fun i q => i + 2 * q) cur (<[d:=p]> (replicate (length cur) 0)))
    (<[d:=K]> (replicate (length cur) 1))
  = <[d:=s + 2 * p - K + 1]> cur.
Proof.
  revert d. induction cur as [|a cur IH]; intros d Hd; [done|].
  destruct d as [|d]; cbn [length replicate insert list_insert zip_with].
  - cbn in Hd. simplify_eq. f_equal.
    clear. induction cur as [|a cur IH]; [done|]. cbn. f_equal; [lia|done].
  - f_equal; [lia|]. by apply IH.
Qed.

Lemma GaussianFilter_conv_axis (n d : nat) (inner weight : Tensor)
    (B C s p K : Z) (cur : list Z) :
  shape inner = B :: C :: cur ->
  length cur = n ->
  shape weight = C :: 1 :: <[d:=K]> (replicate n 1) ->
  dtype inner = dtype weight ->
  device inner = device weight ->
  0 < C ->
  0 <= p ->
  cur !! d = Some s ->
  K <= s + 2 * p ->
  Forall (fun v => 1 <= v) cur ->
  exists out,
    conv n inner weight (<[d:=p]> (replicate n 0)) C = Ok out
    /\ shape out = B :: C :: <[d:=s + 2 * p - K + 1]> cur.
Proof.
  intros Hin Hlen Hw Hdt Hdev HC Hp Hs HK Hall.
  unfold conv. rewrite Hin, Hw.
  rewrite !length_insert, !length_replicate, Hlen.
  rewrite !(bool_decide_eq_true_2 (n = n)) by done. cbn [andb negb].
  rewrite (bool_decide_eq_true_2 _ Hdt), (bool_decide_eq_true_2 _ Hdev). cbn [negb].
  rewrite (bool_decide_eq_true_2 (0 < C)) by done. cbn [negb].
  rewrite (bool_decide_eq_true_2 (C `mod` C = 0)) by apply Z_mod_same_full. cbn [negb].
  rewrite (bool_decide_eq_true_2 (C = 1 * C)) by lia. cbn [negb].
  rewrite existsb_negative_insert by (by apply existsb_negative_replicate || done).
  subst n. rewrite (conv_axis_sizes cur d s p K Hs).
  assert (existsb (fun o => bool_decide (o < 1)) (<[d:=s + 2 * p - K + 1]> cur) = false) as ->.
  { assert (Forall (fun v => 1 <= v) (<[d:=s + 2 * p - K + 1]> cur)) as Hall'.
    { apply Forall_insert; [done|lia]. }
    induction Hall' as [|v l Hv _ IH]; [done|].
    cbn [existsb]. by rewrite bool_decide_eq_false_2, IH by lia. }
  eexists. split; reflexivity.
Qed.

Lemma smoothed_sizes_0 (spatial pads kernels : list Z) :
  smoothed_sizes 0 spatial pads kernels = spatial.
Proof.
  unfold smoothed_sizes. apply list_eq. intros i.
  rewrite list_lookup_imap. destruct (spatial !! i); [|done]. cbn.
  by rewrite decide_False by lia.
Qed.

Lemma length_smoothed_sizes d spatial pads kernels :
  length (smoothed_sizes d spatial pads kernels) = length spatial.
Proof. apply length_imap. Qed.

Lemma smoothed_sizes_S (d : nat) (spatial pads kernels : list Z) (s p K : Z) :
  spatial !! d = Some s ->
  pads !! d = Some p ->
  kernels !! d = Some K ->
  smoothed_sizes (S d) spatial pads kernels
  = <[d:=s + 2 * p - K + 1]> (smoothed_sizes d spatial pads kernels).
Proof.
  intros Hs Hp HK. unfold smoothed_sizes. apply list_eq. intros i.
  destruct (decide (i = d)) as [->|Hne].
  - rewrite list_lookup_insert_eq by (rewrite length_imap; by eapply lookup_lt_Some).
    rewrite list_lookup_imap, Hs. cbn.
    by rewrite decide_True, Hp, HK by lia.
  - rewrite list_lookup_insert_ne by done.
    rewrite !list_lookup_imap. destruct (spatial !! i); [|done]. cbn.
    destruct (decide (i < d)%nat).
    + by rewrite decide_True by lia.
    + by rewrite decide_False by lia.
Qed.

Lemma smoothed_sizes_lookup_ge (d i : nat) (spatial pads kernels : list Z) :
  (d <= i)%nat ->
  smoothed_sizes d spatial pads kernels !! i = spatial !! i.
Proof.
  intros Hi. unfold smoothed_sizes. rewrite list_lookup_imap.
  destruct (spatial !! i); [|done]. cbn. by rewrite decide_False by lia.
Qed.

Lemma setitem_nat {A} (l : list A) (i : nat) (a : A) :
  (i < length l)%nat -> setitem l (Z.of_nat i) a = Ok (<[i:=a]> l).
Proof.
  intros Hlt. unfold setitem, py_index. rewrite bool_decide_eq_true_2 by lia.
  by rewrite Nat2Z.id.
Qed.

Section gaussian_filter.
Context (n : nat) (self : GaussianFilter) (Hwf : GaussianFilter_wf n self).
Context (spatial : list Z) (Hlen : length spatial = n).
Context (Hpos : Forall (fun s => 1 <= s) spatial).
Context (Hfit : forall i s p K,
            spatial !! i = Some s -> padding self !! i = Some p ->
            kernel_sizes self !! i = Some K -> K <= s + 2 * p).

(** What axis [d] of the filter holds. *)
Lemma GaussianFilter_axis (d : nat) :
  (d < n)%nat ->
  exists k K p s,
    kernel self !! d = Some k /\ shape k = [K] /\ 1 <= K
    /\ kernel_sizes self !! d = Some K
    /\ padding self !! d = Some p /\ 0 <= p
    /\ spatial !! d = Some s /\ 1 <= s /\ K <= s + 2 * p.
Proof.
  intros Hd. destruct Hwf as (_ & _ & Hks & Hps & Hshape & _ & Hpad).
  destruct (lookup_lt_is_Some_2 (kernel self) d) as [k Hk]; [lia|].
  destruct (lookup_lt_is_Some_2 (padding self) d) as [p Hp]; [lia|].
  destruct (lookup_lt_is_Some_2 spatial d) as [s Hs]; [lia|].
  destruct (proj1 (Forall_lookup _ _) Hshape d k Hk) as (K & HK & HK1).
  assert (kernel_sizes self !! d = Some K) as HKs.
  { unfold kernel_sizes. rewrite list_lookup_fmap, Hk. cbn. by rewrite HK. }
  exists k, K, p, s. split_and!; try done.
  - by apply (proj1 (Forall_lookup _ _) Hpad d p).
  - by apply (proj1 (Forall_lookup _ _) Hpos d s).
  - by apply (Hfit d s p K).
Qed.

Lemma smoothed_sizes_positive (d : nat) :
  (d <= n)%nat ->
  Forall (fun v => 1 <= v) (smoothed_sizes d spatial (padding self) (kernel_sizes self)).
Proof.
  intros Hd. apply Forall_lookup. intros i v.
  unfold smoothed_sizes. rewrite list_lookup_imap.
  destruct (spatial !! i) as [s|] eqn:Hs; [|done]. cbn. intros [= <-].
  pose proof (lookup_lt_Some _ _ _ Hs) as Hi.
  destruct (GaussianFilter_axis i) as (k & K & p & s' & _ & _ & _ & HK & Hp & _ & Hs' & Hs1 & HKs);
    [lia|].
  simplify_eq. rewrite Hp, HK. cbn. case_decide; lia.
Qed.

(** The recursion of [_conv] over the axes [0 .. d1 - 1]. *)
Lemma GaussianFilter_conv_run (x : Tensor) (B C : Z) (d1 : nat) :
  shape x = B :: C :: spatial ->
  0 < C ->
  (forall k, k ∈ kernel self -> dtype x = dtype k /\ device x = device k) ->
  (d1 <= n)%nat ->
  exists out,
    GaussianFilter_conv self C x d1 = Ok out
    /\ shape out = B :: C :: smoothed_sizes d1 spatial (padding self) (kernel_sizes self).
Proof.
  intros Hx HC Hdt. induction d1 as [|d IH]; intros Hd.
  - exists x. split; [done|]. by rewrite smoothed_sizes_0.
  - destruct IH as (inner & Hinner & Hshape); [lia|].
    destruct (GaussianFilter_axis d) as (k & K & p & s & Hk & HkK & HK1 & HKs & Hp & Hp0 & Hs & Hs1 & HKfit);
      [lia|].
    destruct Hwf as (Hsp & Hconv & Hks & Hps & _).
    destruct (GaussianFilter_weight n d k K C) as (sh & k1 & k2 & Hset & Hre & Hrep & Hk2 & Hk2dt & Hk2dev);
      [lia|done|lia|].
    destruct (Hdt k) as [Hxdt Hxdev]; [by eapply list_elem_of_lookup_2|].
    destruct (GaussianFilter_conv_dtype_device _ _ _ _ _ Hinner) as [Hidt Hidev].
    destruct (GaussianFilter_conv_axis n d inner k2 B C s p K
                (smoothed_sizes d spatial (padding self) (kernel_sizes self)))
      as (out & Hout & Hout_shape); try done.
    { by rewrite length_smoothed_sizes. }
    { congruence. }
    { congruence. }
    { by rewrite smoothed_sizes_lookup_ge. }
    { apply smoothed_sizes_positive. lia. }
    exists out. split.
    + cbn [GaussianFilter_conv]. rewrite Hsp, Hset. cbn [mbind result_bind].
      rewrite (getitem_nat _ _ _ Hk). cbn [mbind result_bind].
      rewrite Hre. cbn [mbind result_bind]. rewrite Hrep. cbn [mbind result_bind].
      rewrite (getitem_nat _ _ _ Hp). cbn [mbind result_bind].
      unfold py_replicate. rewrite Nat2Z.id.
      rewrite setitem_nat by (rewrite length_replicate; lia). cbn [mbind result_bind].
      rewrite Hinner. cbn [mbind result_bind]. by rewrite Hconv.
    + rewrite Hout_shape. by rewrite (smoothed_sizes_S d _ _ _ s p K).
Qed.
End gaussian_filter.

Lemma GaussianFilter_forward_run {W} (n : nat) (self : GaussianFilter) (x : Tensor)
    (B C : Z) (spatial : list Z) (w : W) :
  GaussianFilter_wf n self ->
  (1 <= n)%nat ->
  shape x = B :: C :: spatial ->
  length spatial = n ->
  0 < C ->
  Forall (fun s => 1 <= s) spatial ->
  (forall i s p K,
     spatial !! i = Some s -> padding self !! i = Some p ->
     kernel_sizes self !! i = Some K -> K <= s + 2 * p) ->
  exists out,
    GaussianFilter_forward x (self, w) = (Ok out, (self, w))
    /\ shape out = B :: C :: smoothed_sizes n spatial (padding self) (kernel_sizes self).
Proof.
  intros Hwf Hn Hx Hlen HC Hpos Hfit.
  pose proof Hwf as (Hsp & _ & Hks & _ & _ & Hsame & _).
  destruct (lookup_lt_is_Some_2 (kernel self) 0) as [k0 Hk0]; [lia|].
  destruct (to_dtype_device x k0) as (Hdt & Hdev & Hshape).
  destruct (contiguous_meta (to x k0)) as (Hcs & Hcdt & Hcdev).
  destruct (GaussianFilter_conv_run n self Hwf spatial Hlen Hpos Hfit
              (contiguous (to x k0)) B C n)
    as (out & Hout & Hout_shape); try done.
  { by rewrite Hcs, Hshape. }
  { intros k Hk. rewrite Hcdt, Hcdev, Hdt, Hdev. apply Hsame; [|done].
    by eapply list_elem_of_lookup_2. }
  exists out. split; [|done].
  unfold GaussianFilter_forward. run.
  assert (getitem (shape x) 1 = Ok C) as ->.
  { rewrite Hx. apply (getitem_nat _ 1). done. }
  run. rewrite (proj2 (getitem_first _ _) Hk0). run.
  unfold as_tensor. by rewrite Hsp, Nat2Z.id, Hout.
Qed.

(** X9. A Gaussian filter for [n] spatial dimensions, [n] from 1 to 3,
    run on an input of shape [[B, C, s1, ..., sn]] with at least one image,
    one channel and one element per axis, returns an output of shape
    [[B, C, t1, ..., tn]] where [ti = si + 2 * pi - ki + 1] for the padding
    [pi] and the kernel size [ki] of axis [i], provided no kernel is longer
    than its padded axis. The number of channels is free: every channel is
    filtered on its own. *)
Theorem GaussianFilter_forward_shape {W} (n : nat) (self : GaussianFilter) (x : Tensor)
    (B C : Z) (spatial : list Z) (w : W) :
  GaussianFilter_wf n self ->
  (1 <= n <= 3)%nat ->
  shape x = B :: C :: spatial ->
  length spatial = n ->
  1 <= B ->
  1 <= C ->
  Forall (fun s => 1 <= s) spatial ->
  (forall i s p K,
     spatial !! i = Some s -> padding self !! i = Some p ->
     kernel_sizes self !! i = Some K -> K <= s + 2 * p) ->
  exists out,
    GaussianFilter_forward x (self, w) = (Ok out, (self, w))
    /\ shape out = B :: C :: smoothed_sizes n spatial (padding self) (kernel_sizes self).
Proof.
  intros Hwf Hn Hx Hlen _ HC Hpos Hfit.
  apply (GaussianFilter_forward_run n self x B C spatial w); try done; lia.
Qed.

Lemma GaussianFilter_same_padding_run {W} (n : nat) (self : GaussianFilter) (x : Tensor)
    (B C : Z) (spatial : list Z) (w : W) :
  GaussianFilter_wf n self ->
  (1 <= n)%nat ->
  shape x = B :: C :: spatial ->
  length spatial = n ->
  1 <= C ->
  Forall (fun s => 1 <= s) spatial ->
  (forall i p K,
     padding self !! i = Some p -> kernel_sizes self !! i = Some K -> K = 2 * p + 1) ->
  exists out,
    GaussianFilter_forward x (self, w) = (Ok out, (self, w))
    /\ shape out = shape x.
Proof.
  intros Hwf Hn Hx Hlen HC Hpos Hsame.
  destruct (GaussianFilter_forward_run n self x B C spatial w) as (out & Hout & Hshape);
    try done; try lia.
  { intros i s p K Hs Hp HK. rewrite (Hsame i p K Hp HK).
    assert (1 <= s) by (by apply (proj1 (Forall_lookup _ _) Hpos i s)). lia. }
  exists out. split; [done|]. rewrite Hshape, Hx. do 2 f_equal.
  destruct Hwf as (_ & _ & Hks & Hps & _).
  unfold smoothed_sizes. apply list_eq. intros i.
  rewrite list_lookup_imap. destruct (spatial !! i) as [s|] eqn:Hs; [|done]. cbn.
  pose proof (lookup_lt_Some _ _ _ Hs) as Hi.
  destruct (lookup_lt_is_Some_2 (padding self) i) as [p Hp]; [lia|].
  destruct (lookup_lt_is_Some_2 (kernel_sizes self) i) as [K HK].
  { unfold kernel_sizes. rewrite length_fmap. lia. }
  rewrite decide_True, Hp, HK by lia. cbn.
  rewrite (Hsame i p K Hp HK). f_equal. lia.
Qed.

(** X10. With same-size padding, every kernel odd and padded by half its
    length less one half ([k = 2 * p + 1]), a Gaussian filter returns an
    output of the shape of its input. *)
Theorem GaussianFilter_forward_same_padding {W} (n : nat) (self : GaussianFilter) (x : Tensor)
    (B C : Z) (spatial : list Z) (w : W) :
  GaussianFilter_wf n self ->
  (1 <= n <= 3)%nat ->
  shape x = B :: C :: spatial ->
  length spatial = n ->
  1 <= B ->
  1 <= C ->
  Forall (fun s => 1 <= s) spatial ->
  (forall i p K,
     padding self !! i = Some p -> kernel_sizes self !! i = Some K -> K = 2 * p + 1) ->
  exists out,
    GaussianFilter_forward x (self, w) = (Ok out, (self, w))
    /\ shape out = shape x.
Proof.
  intros Hwf Hn Hx Hlen _ HC Hpos Hsame.
  apply (GaussianFilter_same_padding_run n self x B C spatial w); try done; lia.
Qed.

(** Discharges [k ∈ l] hypotheses over explicit lists. *)
Ltac explicit_elems :=
  repeat match goal with
         | H : _ ∈ [] |- _ => by apply elem_of_nil in H
         | H : _ ∈ _ :: _ |- _ => apply elem_of_cons in H as [->|H]
         end.

Lemma GaussianFilter_forward_shape_witness :
  exists out,
    GaussianFilter_forward (mkTensor [1; 4; 16; 8] float64 cpu (Leaf 0))
      (mkGaussianFilter 2 [mkTensor [5] float32 cpu (Leaf 1); mkTensor [3] float32 cpu (Leaf 2)]
         [0; 1] 2, tt)
    = (Ok out,
       (mkGaussianFilter 2 [mkTensor [5] float32 cpu (Leaf 1); mkTensor [3] float32 cpu (Leaf 2)]
          [0; 1] 2, tt))
    /\ shape out = 1 :: 4 :: smoothed_sizes 2 [16; 8] [0; 1] [5; 3].
Proof.
  apply (GaussianFilter_forward_shape 2
           (mkGaussianFilter 2 [mkTensor [5] float32 cpu (Leaf 1); mkTensor [3] float32 cpu (Leaf 2)]
              [0; 1] 2)
           (mkTensor [1; 4; 16; 8] float64 cpu (Leaf 0)) 1 4 [16; 8] tt).
  - split_and!; try reflexivity.
    + repeat constructor; eexists; (split; [reflexivity|lia]).
    + intros k k' Hk Hk'. cbn in Hk, Hk'. by explicit_elems.
    + repeat constructor; lia.
  - lia.
  - reflexivity.
  - reflexivity.
  - lia.
  - lia.
  - repeat constructor; lia.
  - intros [|[|i]] s p K Hs Hp HK; cbn in Hs, Hp, HK; simplify_eq; lia.
Defined.

Example GaussianFilter_forward_shape_sizes :
  smoothed_sizes 2 [16; 8] [0; 1] [5; 3] = [12; 8].
Proof. reflexivity. Qed.

Lemma GaussianFilter_forward_same_padding_witness :
  exists out,
    GaussianFilter_forward (mkTensor [2; 3; 9; 9; 5] float32 cpu (Leaf 0))
      (mkGaussianFilter 3
         [mkTensor [5] float32 cpu (Leaf 1); mkTensor [5] float32 cpu (Leaf 2);
          mkTensor [3] float32 cpu (Leaf 3)]
         [2; 2; 1] 3, tt)
    = (Ok out,
       (mkGaussianFilter 3
          [mkTensor [5] float32 cpu (Leaf 1); mkTensor [5] float32 cpu (Leaf 2);
           mkTensor [3] float32 cpu (Leaf 3)]
          [2; 2; 1] 3, tt))
    /\ shape out = [2; 3; 9; 9; 5].
Proof.
  apply (GaussianFilter_forward_same_padding 3
           (mkGaussianFilter 3
              [mkTensor [5] float32 cpu (Leaf 1); mkTensor [5] float32 cpu (Leaf 2);
               mkTensor [3] float32 cpu (Leaf 3)]
              [2; 2; 1] 3)
           (mkTensor [2; 3; 9; 9; 5] float32 cpu (Leaf 0)) 2 3 [9; 9; 5] tt).
  - split_and!; try reflexivity.
    + repeat constructor; eexists; (split; [reflexivity|lia]).
    + intros k k' Hk Hk'. cbn in Hk, Hk'. by explicit_elems.
    + repeat constructor; lia.
  - lia.
  - reflexivity.
  - reflexivity.
  - lia.
  - lia.
  - repeat constructor; lia.
  - intros [|[|[|i]]] p K Hp HK; cbn in Hp, HK; simplify_eq; lia.
Defined.

(** X11. [GaussianFilter.forward] reads the number of channels off the
    second dimension of its input and the target dtype off its first
    kernel: on an input with fewer than two dimensions, and on a filter
    that holds no kernel, it raises an [IndexError] and leaves the filter
    and the world as they were. *)
Theorem GaussianFilter_forward_index_errors {W} (self : GaussianFilter) (x : Tensor) (w : W) :
  ((length (shape x) < 2)%nat ->
   exists msg, GaussianFilter_forward x (self, w) = (Raise (IndexError msg), (self, w)))
  /\ (kernel self = [] ->
      exists msg, GaussianFilter_forward x (self, w) = (Raise (IndexError msg), (self, w))).
Proof.
  split.
  - intros Hx. unfold GaussianFilter_forward. run.
    assert (getitem (shape x) 1 = Raise (IndexError "index out of range")) as ->;
      [|by eexists].
    unfold getitem, py_index.
    destruct (shape x) as [|a [|b l]]; cbn in Hx; [done|done|lia].
  - intros Hk. unfold GaussianFilter_forward. run.
    destruct (getitem (shape x) 1) as [c|e] eqn:Hc.
    + run. rewrite Hk. by eexists.
    + unfold getitem in Hc. destruct (_ ≫= _); simplify_eq. by eexists.
Qed.

(** ** The constructor of the sliding-window inferer, called in other ways *)

(** X12. Each of the three optional parameters of
    [SlidingWindowInferer.__init__] takes its default on its own: whichever
    of [sw_batch_size], [overlap] and [blend_mode] a call passes by
    keyword, in the order of the signature or in the reverse order, the
    constructor runs on the values passed and on 1, 0.25 and "constant" for
    the ones left out. *)
Theorem SlidingWindowInferer_defaults_independent (roi : Value) (sw ov bm : option Value) :
  let kwargs := omap id [pair "sw_batch_size" <$> sw; pair "overlap" <$> ov;
                         pair "blend_mode" <$> bm] in
  let built := SlidingWindowInferer__init__ roi (default (VInt 1) sw)
                 (default (VFloat 0.25) ov) (default (VStr "constant") bm) in
  SlidingWindowInferer_new [roi] kwargs = built
  /\ SlidingWindowInferer_new [roi] (reverse kwargs) = built
  /\ SlidingWindowInferer_new [] (("roi_size", roi) :: kwargs) = built.
Proof. destruct sw, ov, bm; repeat split. Qed.

(** X13. A call that does not fit the signature of
    [SlidingWindowInferer.__init__] is a [TypeError] before the body runs,
    so whatever the window shape the assertion on it is not what fails:
    more than four positional arguments, a keyword that names no parameter,
    or the window shape passed both by position and by keyword. *)
Theorem SlidingWindowInferer_new_rejects_bad_calls :
  (forall args kwargs,
     (4 < length args)%nat ->
     exists msg, SlidingWindowInferer_new args kwargs = Raise (TypeError msg))
  /\ (forall args kwargs k v,
        (length args <= 4)%nat ->
        (k, v) ∈ kwargs ->
        k ∉ ["roi_size"; "sw_batch_size"; "overlap"; "blend_mode"] ->
        exists msg, SlidingWindowInferer_new args kwargs = Raise (TypeError msg))
  /\ (forall roi roi' sw ov bm,
        exists msg,
          SlidingWindowInferer_new [roi; sw; ov; bm] [("roi_size", roi')]
          = Raise (TypeError msg)).
Proof.
  split_and!.
  - intros args kwargs Hlen. unfold SlidingWindowInferer_new, bind_args.
    rewrite bool_decide_eq_true_2 by (cbn; lia). by eexists.
  - intros args kwargs k v Hlen Hin Hk. unfold SlidingWindowInferer_new, bind_args.
    rewrite bool_decide_eq_false_2 by (cbn; lia).
    assert (existsb (fun kv : string * Value =>
                       bool_decide (kv.1 ∉ SlidingWindowInferer_signature.*1)) kwargs = true)
      as ->; [|by eexists].
    apply existsb_exists. exists (k, v). split.
    + by apply list_elem_of_In.
    + by apply bool_decide_eq_true.
  - intros. by eexists.
Qed.

(** ** GaussianFilter: what the constructor builds *)

Lemma mapM_result_Ok {A B} (f : A -> result B) (l : list A) (l' : list B) :
  mapM f l = Ok l' <-> Forall2 (fun a b => f a = Ok b) l l'.
Proof.
  revert l'. induction l as [|a l IH]; intros l'.
  - split.
    + intros [= <-]. constructor.
    + by intros ->%Forall2_nil_inv_l.
  - change (mapM f (a :: l)) with (f a ≫= fun b => mapM f l ≫= fun bs => mret (b :: bs)).
    split.
    + intros (b & Hb & H)%result_bind_Ok.
      apply result_bind_Ok in H as (bs & Hbs & [= <-]).
      constructor; [done|by apply IH].
    + intros (b & bs & Hb & Hbs & ->)%Forall2_cons_inv_l.
      rewrite Hb. cbn [mbind result_bind].
      apply IH in Hbs. rewrite Hbs. done.
Qed.

Lemma GaussianFilter__init__Ok lib sd sigma truncated self registered :
  GaussianFilter__init__ lib sd sigma truncated = Ok (self, registered) ->
  exists sigmas,
    ensure_tuple_rep lib sigma sd = Ok sigmas
    /\ Forall2 (fun s k => exists a, gaussian_1d lib s truncated = Ok a /\ k = float32_parameter a)
         sigmas (kernel self)
    /\ Forall2 (fun k p => exists K, getitem (shape k) 0 = Ok K /\ same_padding lib K = Ok p)
         (kernel self) (padding self)
    /\ getitem [1; 2; 3]%nat (sd - 1) = Ok (conv_n self)
    /\ spatial_dims self = sd
    /\ registered = imap (fun idx param => ("kernel_" +:+ pretty idx, param)) (kernel self).
Proof.
  unfold GaussianFilter__init__.
  intros (sigmas & Hsig & H)%result_bind_Ok.
  apply result_bind_Ok in H as (ks & Hks & H).
  apply result_bind_Ok in H as (ps & Hps & H).
  apply result_bind_Ok in H as (c & Hc & H).
  injection H as <- <-. cbn.
  exists sigmas. split_and!; try done.
  - apply mapM_result_Ok in Hks. eapply Forall2_impl; [exact Hks|].
    intros s k (a & Ha & [= <-])%result_bind_Ok. eauto.
  - apply mapM_result_Ok in Hps. eapply Forall2_impl; [exact Hps|].
    intros k p (K & HK & Hp)%result_bind_Ok. eauto.
Qed.

(** X14. Whatever its helpers return, [GaussianFilter.__init__] builds no
    filter for more than three spatial dimensions: a filter that was
    built has [spatial_dims] between -2 and 3 and the convolution picked
    by the Python index [spatial_dims - 1] into the three convolutions.
    For 1, 2 and 3 that is the convolution of that many dimensions; for 0,
    -1 and -2 the index wraps around and picks the 3-D, 2-D and 1-D one. *)
Theorem GaussianFilter__init__dimensions lib sd sigma truncated self registered :
  GaussianFilter__init__ lib sd sigma truncated = Ok (self, registered) ->
  -2 <= sd <= 3
  /\ spatial_dims self = sd
  /\ Z.of_nat (conv_n self) = (sd - 1) `mod` 3 + 1.
Proof.
  intros (sigmas & _ & _ & _ & Hconv & Hsd & _)%GaussianFilter__init__Ok.
  unfold getitem, py_index in Hconv. cbn [length] in Hconv.
  repeat case_bool_decide; try done.
  - assert (sd = 1 \/ sd = 2 \/ sd = 3) as Hcases by lia.
    destruct Hcases as [E|[E|E]]; rewrite E in Hconv |- *;
      cbn in Hconv; injection Hconv as <-; split_and!; (done || lia).
  - assert (sd = 0 \/ sd = -1 \/ sd = -2) as Hcases by lia.
    destruct Hcases as [E|[E|E]]; rewrite E in Hconv |- *;
      cbn in Hconv; injection Hconv as <-; split_and!; (done || lia).
Qed.

Lemma GaussianFilter__init__dimensions_witness :
  -2 <= 0 <= 3
  /\ spatial_dims (mkGaussianFilter 0 [] [] 3) = 0
  /\ Z.of_nat (conv_n (mkGaussianFilter 0 [] [] 3)) = (0 - 1) `mod` 3 + 1.
Proof.
  apply (GaussianFilter__init__dimensions example_convutils 0 (VFloat 1.5) (VFloat 4)
           (mkGaussianFilter 0 [] [] 3) []).
  reflexivity.
Defined.

(** X15. A filter that [GaussianFilter.__init__] built holds one kernel
    per value of [ensure_tuple_rep(sigma, spatial_dims)], each a float32
    tensor on the CPU with the shape of the array [gaussian_1d] returned;
    one padding per kernel, the [same_padding] of the kernel's first size;
    and one registered parameter per kernel, the [i]-th kernel under the
    name [kernel_i]. *)
Theorem GaussianFilter__init__structure lib sd sigma truncated self registered :
  GaussianFilter__init__ lib sd sigma truncated = Ok (self, registered) ->
  (exists sigmas, ensure_tuple_rep lib sigma sd = Ok sigmas
                  /\ length (kernel self) = length sigmas)
  /\ Forall (fun k => dtype k = float32 /\ device k = cpu) (kernel self)
  /\ Forall2 (fun k p => exists K, getitem (shape k) 0 = Ok K /\ same_padding lib K = Ok p)
       (kernel self) (padding self)
  /\ registered.*2 = kernel self
  /\ registered.*1 = (fun i => "kernel_" +:+ pretty i) <$> seq 0 (length (kernel self)).
Proof.
  intros (sigmas & Hsig & Hks & Hps & _ & _ & ->)%GaussianFilter__init__Ok.
  split_and!.
  - exists sigmas. split; [done|]. symmetry. by eapply Forall2_length.
  - clear Hps Hsig. induction Hks as [|s k sigmas ks Hk _ IH]; [constructor|].
    destruct Hk as (a & _ & ->). by constructor.
  - done.
  - apply list_eq. intros i.
    rewrite list_lookup_fmap, list_lookup_imap. by destruct (kernel self !! i).
  - apply list_eq. intros i.
    rewrite !list_lookup_fmap, list_lookup_imap.
    destruct (kernel self !! i) as [k|] eqn:Hk; cbn.
    + rewrite lookup_seq_lt by by eapply lookup_lt_Some. done.
    + rewrite lookup_seq_ge by by apply lookup_ge_None. done.
Qed.

Lemma GaussianFilter__init__structure_witness :
  let k := mkTensor [5] float32 cpu (Op "as_tensor" [] [Leaf 7]) in
  let self := mkGaussianFilter 2 [k; k] [2; 2] 2 in
  let registered := [("kernel_0", k); ("kernel_1", k)] in
  (exists sigmas, ensure_tuple_rep example_convutils (VFloat 1.5) 2 = Ok sigmas
                  /\ length (kernel self) = length sigmas)
  /\ Forall (fun k => dtype k = float32 /\ device k = cpu) (kernel self)
  /\ Forall2 (fun k p => exists K, getitem (shape k) 0 = Ok K
                                   /\ same_padding example_convutils K = Ok p)
       (kernel self) (padding self)
  /\ registered.*2 = kernel self
  /\ registered.*1 = (fun i => "kernel_" +:+ pretty i) <$> seq 0 (length (kernel self)).
Proof.
  apply (GaussianFilter__init__structure example_convutils 2 (VFloat 1.5) (VFloat 4)).
  reflexivity.
Defined.

Lemma GaussianFilter_forward_dtype {W} (x out : Tensor)
    (s s' : GaussianFilter * W) (k0 : Tensor) :
  GaussianFilter_forward x s = (Ok out, s') ->
  kernel s.1 !! 0%nat = Some k0 ->
  dtype out = dtype k0 /\ device out = device k0.
Proof.
  destruct s as [self w]. cbn [fst]. intros Hrun Hk0.
  unfold GaussianFilter_forward in Hrun. revert Hrun. run.
  destruct (getitem (shape x) 1) as [chns|e]; [|done]. run.
  rewrite (proj2 (getitem_first _ _) Hk0). run.
  intros [Hout _]%pair_equal_spec.
  apply GaussianFilter_conv_dtype_device in Hout as [-> ->].
  unfold as_tensor. destruct (contiguous_meta (to x k0)) as (_ & -> & ->).
  by destruct (to_dtype_device x k0) as (-> & -> & _).
Qed.

(** The kernels and paddings the constructor computes from helpers that
    return odd 1-D kernels and their same-size paddings. *)
Lemma GaussianFilter_kernels_built lib truncated (sigmas : list Value) :
  (forall s, s ∈ sigmas ->
     exists a K p, gaussian_1d lib s truncated = Ok a /\ array_shape a = [K]
                   /\ same_padding lib K = Ok p /\ 0 <= p /\ K = 2 * p + 1) ->
  exists ks ps,
    mapM (fun s => a ← gaussian_1d lib s truncated; mret (float32_parameter a)) sigmas = Ok ks
    /\ mapM (fun k => n ← getitem (shape k) 0; same_padding lib n) ks = Ok ps
    /\ Forall2 (fun k p => shape k = [2 * p + 1] /\ dtype k = float32 /\ device k = cpu /\ 0 <= p)
         ks ps
    /\ length ks = length sigmas.
Proof.
  induction sigmas as [|s sigmas IH]; intros Hlib.
  - exists [], []. by split_and!.
  - destruct (Hlib s) as (a & K & p & Ha & HK & Hp & Hp0 & ->); [by left|].
    destruct IH as (ks & ps & Hks & Hps & Hall & Hlen).
    { intros s' Hs'. apply Hlib. by right. }
    exists (float32_parameter a :: ks), (p :: ps). split_and!.
    + apply mapM_result_Ok. constructor; [by rewrite Ha|by apply mapM_result_Ok].
    + apply mapM_result_Ok. constructor; [|by apply mapM_result_Ok].
      cbn [float32_parameter shape]. rewrite HK.
      by rewrite (proj2 (getitem_first [2 * p + 1] (2 * p + 1)) eq_refl).
    + by constructor.
    + cbn. by rewrite Hlen.
Qed.

(** X16. Built for [n] spatial dimensions, [n] from 1 to 3, out of helpers
    that return for every sigma an odd 1-D kernel and its same-size
    padding, a Gaussian filter run on an input of shape
    [[B, C, s1, ..., sn]] with at least one image, one channel and one
    element per axis returns an output of the shape of the input, float32
    and on the CPU whatever the dtype and device of the input. *)
Theorem GaussianFilter_built_keeps_shape {W} (lib : ConvUtils) (n : nat)
    (sigma truncated : Value) (sigmas : list Value)
    (x : Tensor) (B C : Z) (spatial : list Z) (w : W) :
  (1 <= n <= 3)%nat ->
  ensure_tuple_rep lib sigma (Z.of_nat n) = Ok sigmas ->
  length sigmas = n ->
  (forall s, s ∈ sigmas ->
     exists a K p, gaussian_1d lib s truncated = Ok a /\ array_shape a = [K]
                   /\ same_padding lib K = Ok p /\ 0 <= p /\ K = 2 * p + 1) ->
  shape x = B :: C :: spatial ->
  length spatial = n ->
  1 <= B ->
  1 <= C ->
  Forall (fun s => 1 <= s) spatial ->
  exists self registered out,
    GaussianFilter__init__ lib (Z.of_nat n) sigma truncated = Ok (self, registered)
    /\ GaussianFilter_forward x (self, w) = (Ok out, (self, w))
    /\ shape out = shape x
    /\ dtype out = float32 /\ device out = cpu.
Proof.
  intros Hn Hsig Hlen Hlib Hx Hsp _ HC Hpos.
  destruct (GaussianFilter_kernels_built lib truncated sigmas Hlib)
    as (ks & ps & Hks & Hps & Hall & Hlks).
  pose proof (Forall2_length _ _ _ Hall) as Hlps.
  set (self := mkGaussianFilter (Z.of_nat n) ks ps n).
  assert (GaussianFilter_wf n self) as Hwf.
  { split_and!; cbn; try done; try lia.
    - apply Forall_lookup. intros i k Hk.
      destruct (Forall2_lookup_l _ _ _ _ _ Hall Hk) as (p & _ & Hshape & _ & _ & Hp0).
      exists (2 * p + 1). split; [done|lia].
    - intros k k' Hk Hk'.
      apply list_elem_of_lookup in Hk as [i Hk], Hk' as [i' Hk'].
      destruct (Forall2_lookup_l _ _ _ _ _ Hall Hk) as (p & _ & _ & -> & -> & _).
      destruct (Forall2_lookup_l _ _ _ _ _ Hall Hk') as (p' & _ & _ & -> & -> & _).
      done.
    - apply Forall_lookup. intros i p Hp.
      destruct (Forall2_lookup_r _ _ _ _ _ Hall Hp) as (k & _ & _ & _ & _ & Hp0). done. }
  destruct (GaussianFilter_same_padding_run n self x B C spatial w) as (out & Hout & Hshape);
    try done; try lia.
  { intros i p K Hp HK. cbn in Hp. unfold kernel_sizes in HK. cbn in HK.
    rewrite list_lookup_fmap in HK.
    destruct (ks !! i) as [k|] eqn:Hk; [|done]. cbn in HK.
    destruct (Forall2_lookup_l _ _ _ _ _ Hall Hk) as (p' & Hp' & Hshape & _).
    rewrite Hshape in HK. cbn in HK. by simplify_eq. }
  destruct (lookup_lt_is_Some_2 ks 0) as [k0 Hk0]; [lia|].
  destruct (GaussianFilter_forward_dtype x out (self, w) (self, w) k0 Hout Hk0)
    as [Hdt Hdev].
  destruct (Forall2_lookup_l _ _ _ _ _ Hall Hk0) as (p0 & _ & _ & Hk0dt & Hk0dev & _).
  exists self, (imap (fun idx param => ("kernel_" +:+ pretty idx, param)) ks), out.
  split_and!; try done; try congruence.
  unfold GaussianFilter__init__. rewrite Hsig. cbn [mbind result_bind].
  rewrite Hks. cbn [mbind result_bind]. rewrite Hps. cbn [mbind result_bind].
  assert (getitem [1; 2; 3]%nat (Z.of_nat n - 1) = Ok n) as ->; [|done].
  assert (n = 1 \/ n = 2 \/ n = 3)%nat as [->|[->| ->]] by lia; reflexivity.
Qed.

Lemma GaussianFilter_built_keeps_shape_witness :
  exists self registered out,
    GaussianFilter__init__ example_convutils (Z.of_nat 2) (VFloat 1.5) (VFloat 4)
    = Ok (self, registered)
    /\ GaussianFilter_forward (mkTensor [1; 3; 32; 24] float64 (cuda 0) (Leaf 0)) (self, tt)
       = (Ok out, (self, tt))
    /\ shape out = [1; 3; 32; 24]
    /\ dtype out = float32 /\ device out = cpu.
Proof.
  apply (GaussianFilter_built_keeps_shape example_convutils 2 (VFloat 1.5) (VFloat 4)
           [VFloat 1.5; VFloat 1.5]
           (mkTensor [1; 3; 32; 24] float64 (cuda 0) (Leaf 0)) 1 3 [32; 24] tt).
  - lia.
  - reflexivity.
  - reflexivity.
  - intros s _. exists (mkNdArray [5] (Leaf 7)), 5, 2.
    split_and!; try reflexivity; lia.
  - reflexivity.
  - reflexivity.
  - lia.
  - lia.
  - repeat constructor; lia.
Defined.
